(** * Text representation notebook: the custom tokenizer and its consumers

    Shallow embedding of [1_NLP_Text_Representation.ipynb].  The only
    author-written function of the notebook is [spacy_tokenizer]; it reads
    three notebook globals ([nlp], [stop_words], [punctuations]) and is
    handed to scikit-learn's vectorizers.

    A Python [str] is a sequence of code points; it is carried as the Rocq
    [string] that holds its UTF-8 encoding.  Equality and substring search
    on the encodings coincide with equality and substring search on the code
    points, so the two membership tests of the tokenizer work on the bytes.
    [str.lower] works on the code points: the string is decoded, mapped
    with the Unicode lower-case mapping (including the rule for capital
    sigma), and encoded again. *)

From Stdlib Require Import Ascii QArith NArith Zify.
From stdpp Require Import base decidable list strings gmap sorting.

Local Open Scope char_scope.
Local Open Scope stdpp_scope.

(** ** Unicode case data *)

Module Unicode.

(** Code points are natural numbers below [0x110000].  The tables are those
    of Unicode 11.0.0, the version of the character database built into the
    notebook's Python 3.7; each property is a list of inclusive ranges. *)

(** Membership of a code point in a list of ranges. *)
Definition in_ranges (c : N) (ranges : list (N * N)) : bool :=
  existsb (λ r, (r.1 <=? c)%N && (c <=? r.2)%N) ranges.

(** Code points with the property Uppercase: what [c.isupper()] tests on a
    single character. *)
Definition Uppercase_ranges : list (N * N) :=
  [
   (0x41, 0x5A); (0xC0, 0xD6); (0xD8, 0xDE); (0x100, 0x100); (0x102, 0x102);
    (0x104, 0x104); (0x106, 0x106); (0x108, 0x108); (0x10A, 0x10A);
    (0x10C, 0x10C); (0x10E, 0x10E); (0x110, 0x110); (0x112, 0x112);
    (0x114, 0x114); (0x116, 0x116); (0x118, 0x118); (0x11A, 0x11A);
    (0x11C, 0x11C); (0x11E, 0x11E); (0x120, 0x120); (0x122, 0x122);
    (0x124, 0x124); (0x126, 0x126); (0x128, 0x128); (0x12A, 0x12A);
    (0x12C, 0x12C); (0x12E, 0x12E); (0x130, 0x130); (0x132, 0x132);
    (0x134, 0x134); (0x136, 0x136); (0x139, 0x139); (0x13B, 0x13B);
    (0x13D, 0x13D); (0x13F, 0x13F); (0x141, 0x141); (0x143, 0x143);
    (0x145, 0x145); (0x147, 0x147); (0x14A, 0x14A); (0x14C, 0x14C);
    (0x14E, 0x14E); (0x150, 0x150); (0x152, 0x152); (0x154, 0x154);
    (0x156, 0x156); (0x158, 0x158); (0x15A, 0x15A); (0x15C, 0x15C);
    (0x15E, 0x15E); (0x160, 0x160); (0x162, 0x162); (0x164, 0x164);
    (0x166, 0x166); (0x168, 0x168); (0x16A, 0x16A); (0x16C, 0x16C);
    (0x16E, 0x16E); (0x170, 0x170); (0x172, 0x172); (0x174, 0x174);
    (0x176, 0x176); (0x178, 0x179); (0x17B, 0x17B); (0x17D, 0x17D);
    (0x181, 0x182); (0x184, 0x184); (0x186, 0x187); (0x189, 0x18B);
    (0x18E, 0x191); (0x193, 0x194); (0x196, 0x198); (0x19C, 0x19D);
    (0x19F, 0x1A0); (0x1A2, 0x1A2); (0x1A4, 0x1A4); (0x1A6, 0x1A7);
    (0x1A9, 0x1A9); (0x1AC, 0x1AC); (0x1AE, 0x1AF); (0x1B1, 0x1B3);
    (0x1B5, 0x1B5); (0x1B7, 0x1B8); (0x1BC, 0x1BC); (0x1C4, 0x1C4);
    (0x1C7, 0x1C7); (0x1CA, 0x1CA); (0x1CD, 0x1CD); (0x1CF, 0x1CF);
    (0x1D1, 0x1D1); (0x1D3, 0x1D3); (0x1D5, 0x1D5); (0x1D7, 0x1D7);
    (0x1D9, 0x1D9); (0x1DB, 0x1DB); (0x1DE, 0x1DE); (0x1E0, 0x1E0);
    (0x1E2, 0x1E2); (0x1E4, 0x1E4); (0x1E6, 0x1E6); (0x1E8, 0x1E8);
    (0x1EA, 0x1EA); (0x1EC, 0x1EC); (0x1EE, 0x1EE); (0x1F1, 0x1F1);
    (0x1F4, 0x1F4); (0x1F6, 0x1F8); (0x1FA, 0x1FA); (0x1FC, 0x1FC);
    (0x1FE, 0x1FE); (0x200, 0x200); (0x202, 0x202); (0x204, 0x204);
    (0x206, 0x206); (0x208, 0x208); (0x20A, 0x20A); (0x20C, 0x20C);
    (0x20E, 0x20E); (0x210, 0x210); (0x212, 0x212); (0x214, 0x214);
    (0x216, 0x216); (0x218, 0x218); (0x21A, 0x21A); (0x21C, 0x21C);
    (0x21E, 0x21E); (0x220, 0x220); (0x222, 0x222); (0x224, 0x224);
    (0x226, 0x226); (0x228, 0x228); (0x22A, 0x22A); (0x22C, 0x22C);
    (0x22E, 0x22E); (0x230, 0x230); (0x232, 0x232); (0x23A, 0x23B);
    (0x23D, 0x23E); (0x241, 0x241); (0x243, 0x246); (0x248, 0x248);
    (0x24A, 0x24A); (0x24C, 0x24C); (0x24E, 0x24E); (0x370, 0x370);
    (0x372, 0x372); (0x376, 0x376); (0x37F, 0x37F); (0x386, 0x386);
    (0x388, 0x38A); (0x38C, 0x38C); (0x38E, 0x38F); (0x391, 0x3A1);
    (0x3A3, 0x3AB); (0x3CF, 0x3CF); (0x3D2, 0x3D4); (0x3D8, 0x3D8);
    (0x3DA, 0x3DA); (0x3DC, 0x3DC); (0x3DE, 0x3DE); (0x3E0, 0x3E0);
    (0x3E2, 0x3E2); (0x3E4, 0x3E4); (0x3E6, 0x3E6); (0x3E8, 0x3E8);
    (0x3EA, 0x3EA); (0x3EC, 0x3EC); (0x3EE, 0x3EE); (0x3F4, 0x3F4);
    (0x3F7, 0x3F7); (0x3F9, 0x3FA); (0x3FD, 0x42F); (0x460, 0x460);
    (0x462, 0x462); (0x464, 0x464); (0x466, 0x466); (0x468, 0x468);
    (0x46A, 0x46A); (0x46C, 0x46C); (0x46E, 0x46E); (0x470, 0x470);
    (0x472, 0x472); (0x474, 0x474); (0x476, 0x476); (0x478, 0x478);
    (0x47A, 0x47A); (0x47C, 0x47C); (0x47E, 0x47E); (0x480, 0x480);
    (0x48A, 0x48A); (0x48C, 0x48C); (0x48E, 0x48E); (0x490, 0x490);
    (0x492, 0x492); (0x494, 0x494); (0x496, 0x496); (0x498, 0x498);
    (0x49A, 0x49A); (0x49C, 0x49C); (0x49E, 0x49E); (0x4A0, 0x4A0);
    (0x4A2, 0x4A2); (0x4A4, 0x4A4); (0x4A6, 0x4A6); (0x4A8, 0x4A8);
    (0x4AA, 0x4AA); (0x4AC, 0x4AC); (0x4AE, 0x4AE); (0x4B0, 0x4B0);
    (0x4B2, 0x4B2); (0x4B4, 0x4B4); (0x4B6, 0x4B6); (0x4B8, 0x4B8);
    (0x4BA, 0x4BA); (0x4BC, 0x4BC); (0x4BE, 0x4BE); (0x4C0, 0x4C1);
    (0x4C3, 0x4C3); (0x4C5, 0x4C5); (0x4C7, 0x4C7); (0x4C9, 0x4C9);
    (0x4CB, 0x4CB); (0x4CD, 0x4CD); (0x4D0, 0x4D0); (0x4D2, 0x4D2);
    (0x4D4, 0x4D4); (0x4D6, 0x4D6); (0x4D8, 0x4D8); (0x4DA, 0x4DA);
    (0x4DC, 0x4DC); (0x4DE, 0x4DE); (0x4E0, 0x4E0); (0x4E2, 0x4E2);
    (0x4E4, 0x4E4); (0x4E6, 0x4E6); (0x4E8, 0x4E8); (0x4EA, 0x4EA);
    (0x4EC, 0x4EC); (0x4EE, 0x4EE); (0x4F0, 0x4F0); (0x4F2, 0x4F2);
    (0x4F4, 0x4F4); (0x4F6, 0x4F6); (0x4F8, 0x4F8); (0x4FA, 0x4FA);
    (0x4FC, 0x4FC); (0x4FE, 0x4FE); (0x500, 0x500); (0x502, 0x502);
    (0x504, 0x504); (0x506, 0x506); (0x508, 0x508); (0x50A, 0x50A);
    (0x50C, 0x50C); (0x50E, 0x50E); (0x510, 0x510); (0x512, 0x512);
    (0x514, 0x514); (0x516, 0x516); (0x518, 0x518); (0x51A, 0x51A);
    (0x51C, 0x51C); (0x51E, 0x51E); (0x520, 0x520); (0x522, 0x522);
    (0x524, 0x524); (0x526, 0x526); (0x528, 0x528); (0x52A, 0x52A);
    (0x52C, 0x52C); (0x52E, 0x52E); (0x531, 0x556); (0x10A0, 0x10C5);
    (0x10C7, 0x10C7); (0x10CD, 0x10CD); (0x13A0, 0x13F5); (0x1C90, 0x1CBA);
    (0x1CBD, 0x1CBF); (0x1E00, 0x1E00); (0x1E02, 0x1E02); (0x1E04, 0x1E04);
    (0x1E06, 0x1E06); (0x1E08, 0x1E08); (0x1E0A, 0x1E0A); (0x1E0C, 0x1E0C);
    (0x1E0E, 0x1E0E); (0x1E10, 0x1E10); (0x1E12, 0x1E12); (0x1E14, 0x1E14);
    (0x1E16, 0x1E16); (0x1E18, 0x1E18); (0x1E1A, 0x1E1A); (0x1E1C, 0x1E1C);
    (0x1E1E, 0x1E1E); (0x1E20, 0x1E20); (0x1E22, 0x1E22); (0x1E24, 0x1E24);
    (0x1E26, 0x1E26); (0x1E28, 0x1E28); (0x1E2A, 0x1E2A); (0x1E2C, 0x1E2C);
    (0x1E2E, 0x1E2E); (0x1E30, 0x1E30); (0x1E32, 0x1E32); (0x1E34, 0x1E34);
    (0x1E36, 0x1E36); (0x1E38, 0x1E38); (0x1E3A, 0x1E3A); (0x1E3C, 0x1E3C);
    (0x1E3E, 0x1E3E); (0x1E40, 0x1E40); (0x1E42, 0x1E42); (0x1E44, 0x1E44);
    (0x1E46, 0x1E46); (0x1E48, 0x1E48); (0x1E4A, 0x1E4A); (0x1E4C, 0x1E4C);
    (0x1E4E, 0x1E4E); (0x1E50, 0x1E50); (0x1E52, 0x1E52); (0x1E54, 0x1E54);
    (0x1E56, 0x1E56); (0x1E58, 0x1E58); (0x1E5A, 0x1E5A); (0x1E5C, 0x1E5C);
    (0x1E5E, 0x1E5E); (0x1E60, 0x1E60); (0x1E62, 0x1E62); (0x1E64, 0x1E64);
    (0x1E66, 0x1E66); (0x1E68, 0x1E68); (0x1E6A, 0x1E6A); (0x1E6C, 0x1E6C);
    (0x1E6E, 0x1E6E); (0x1E70, 0x1E70); (0x1E72, 0x1E72); (0x1E74, 0x1E74);
    (0x1E76, 0x1E76); (0x1E78, 0x1E78); (0x1E7A, 0x1E7A); (0x1E7C, 0x1E7C);
    (0x1E7E, 0x1E7E); (0x1E80, 0x1E80); (0x1E82, 0x1E82); (0x1E84, 0x1E84);
    (0x1E86, 0x1E86); (0x1E88, 0x1E88); (0x1E8A, 0x1E8A); (0x1E8C, 0x1E8C);
    (0x1E8E, 0x1E8E); (0x1E90, 0x1E90); (0x1E92, 0x1E92); (0x1E94, 0x1E94);
    (0x1E9E, 0x1E9E); (0x1EA0, 0x1EA0); (0x1EA2, 0x1EA2); (0x1EA4, 0x1EA4);
    (0x1EA6, 0x1EA6); (0x1EA8, 0x1EA8); (0x1EAA, 0x1EAA); (0x1EAC, 0x1EAC);
    (0x1EAE, 0x1EAE); (0x1EB0, 0x1EB0); (0x1EB2, 0x1EB2); (0x1EB4, 0x1EB4);
    (0x1EB6, 0x1EB6); (0x1EB8, 0x1EB8); (0x1EBA, 0x1EBA); (0x1EBC, 0x1EBC);
    (0x1EBE, 0x1EBE); (0x1EC0, 0x1EC0); (0x1EC2, 0x1EC2); (0x1EC4, 0x1EC4);
    (0x1EC6, 0x1EC6); (0x1EC8, 0x1EC8); (0x1ECA, 0x1ECA); (0x1ECC, 0x1ECC);
    (0x1ECE, 0x1ECE); (0x1ED0, 0x1ED0); (0x1ED2, 0x1ED2); (0x1ED4, 0x1ED4);
    (0x1ED6, 0x1ED6); (0x1ED8, 0x1ED8); (0x1EDA, 0x1EDA); (0x1EDC, 0x1EDC);
    (0x1EDE, 0x1EDE); (0x1EE0, 0x1EE0); (0x1EE2, 0x1EE2); (0x1EE4, 0x1EE4);
    (0x1EE6, 0x1EE6); (0x1EE8, 0x1EE8); (0x1EEA, 0x1EEA); (0x1EEC, 0x1EEC);
    (0x1EEE, 0x1EEE); (0x1EF0, 0x1EF0); (0x1EF2, 0x1EF2); (0x1EF4, 0x1EF4);
    (0x1EF6, 0x1EF6); (0x1EF8, 0x1EF8); (0x1EFA, 0x1EFA); (0x1EFC, 0x1EFC);
    (0x1EFE, 0x1EFE); (0x1F08, 0x1F0F); (0x1F18, 0x1F1D); (0x1F28, 0x1F2F);
    (0x1F38, 0x1F3F); (0x1F48, 0x1F4D); (0x1F59, 0x1F59); (0x1F5B, 0x1F5B);
    (0x1F5D, 0x1F5D); (0x1F5F, 0x1F5F); (0x1F68, 0x1F6F); (0x1FB8, 0x1FBB);
    (0x1FC8, 0x1FCB); (0x1FD8, 0x1FDB); (0x1FE8, 0x1FEC); (0x1FF8, 0x1FFB);
    (0x2102, 0x2102); (0x2107, 0x2107); (0x210B, 0x210D); (0x2110, 0x2112);
    (0x2115, 0x2115); (0x2119, 0x211D); (0x2124, 0x2124); (0x2126, 0x2126);
    (0x2128, 0x2128); (0x212A, 0x212D); (0x2130, 0x2133); (0x213E, 0x213F);
    (0x2145, 0x2145); (0x2160, 0x216F); (0x2183, 0x2183); (0x24B6, 0x24CF);
    (0x2C00, 0x2C2E); (0x2C60, 0x2C60); (0x2C62, 0x2C64); (0x2C67, 0x2C67);
    (0x2C69, 0x2C69); (0x2C6B, 0x2C6B); (0x2C6D, 0x2C70); (0x2C72, 0x2C72);
    (0x2C75, 0x2C75); (0x2C7E, 0x2C80); (0x2C82, 0x2C82); (0x2C84, 0x2C84);
    (0x2C86, 0x2C86); (0x2C88, 0x2C88); (0x2C8A, 0x2C8A); (0x2C8C, 0x2C8C);
    (0x2C8E, 0x2C8E); (0x2C90, 0x2C90); (0x2C92, 0x2C92); (0x2C94, 0x2C94);
    (0x2C96, 0x2C96); (0x2C98, 0x2C98); (0x2C9A, 0x2C9A); (0x2C9C, 0x2C9C);
    (0x2C9E, 0x2C9E); (0x2CA0, 0x2CA0); (0x2CA2, 0x2CA2); (0x2CA4, 0x2CA4);
    (0x2CA6, 0x2CA6); (0x2CA8, 0x2CA8); (0x2CAA, 0x2CAA); (0x2CAC, 0x2CAC);
    (0x2CAE, 0x2CAE); (0x2CB0, 0x2CB0); (0x2CB2, 0x2CB2); (0x2CB4, 0x2CB4);
    (0x2CB6, 0x2CB6); (0x2CB8, 0x2CB8); (0x2CBA, 0x2CBA); (0x2CBC, 0x2CBC);
    (0x2CBE, 0x2CBE); (0x2CC0, 0x2CC0); (0x2CC2, 0x2CC2); (0x2CC4, 0x2CC4);
    (0x2CC6, 0x2CC6); (0x2CC8, 0x2CC8); (0x2CCA, 0x2CCA); (0x2CCC, 0x2CCC);
    (0x2CCE, 0x2CCE); (0x2CD0, 0x2CD0); (0x2CD2, 0x2CD2); (0x2CD4, 0x2CD4);
    (0x2CD6, 0x2CD6); (0x2CD8, 0x2CD8); (0x2CDA, 0x2CDA); (0x2CDC, 0x2CDC);
    (0x2CDE, 0x2CDE); (0x2CE0, 0x2CE0); (0x2CE2, 0x2CE2); (0x2CEB, 0x2CEB);
    (0x2CED, 0x2CED); (0x2CF2, 0x2CF2); (0xA640, 0xA640); (0xA642, 0xA642);
    (0xA644, 0xA644); (0xA646, 0xA646); (0xA648, 0xA648); (0xA64A, 0xA64A);
    (0xA64C, 0xA64C); (0xA64E, 0xA64E); (0xA650, 0xA650); (0xA652, 0xA652);
    (0xA654, 0xA654); (0xA656, 0xA656); (0xA658, 0xA658); (0xA65A, 0xA65A);
    (0xA65C, 0xA65C); (0xA65E, 0xA65E); (0xA660, 0xA660); (0xA662, 0xA662);
    (0xA664, 0xA664); (0xA666, 0xA666); (0xA668, 0xA668); (0xA66A, 0xA66A);
    (0xA66C, 0xA66C); (0xA680, 0xA680); (0xA682, 0xA682); (0xA684, 0xA684);
    (0xA686, 0xA686); (0xA688, 0xA688); (0xA68A, 0xA68A); (0xA68C, 0xA68C);
    (0xA68E, 0xA68E); (0xA690, 0xA690); (0xA692, 0xA692); (0xA694, 0xA694);
    (0xA696, 0xA696); (0xA698, 0xA698); (0xA69A, 0xA69A); (0xA722, 0xA722);
    (0xA724, 0xA724); (0xA726, 0xA726); (0xA728, 0xA728); (0xA72A, 0xA72A);
    (0xA72C, 0xA72C); (0xA72E, 0xA72E); (0xA732, 0xA732); (0xA734, 0xA734);
    (0xA736, 0xA736); (0xA738, 0xA738); (0xA73A, 0xA73A); (0xA73C, 0xA73C);
    (0xA73E, 0xA73E); (0xA740, 0xA740); (0xA742, 0xA742); (0xA744, 0xA744);
    (0xA746, 0xA746); (0xA748, 0xA748); (0xA74A, 0xA74A); (0xA74C, 0xA74C);
    (0xA74E, 0xA74E); (0xA750, 0xA750); (0xA752, 0xA752); (0xA754, 0xA754);
    (0xA756, 0xA756); (0xA758, 0xA758); (0xA75A, 0xA75A); (0xA75C, 0xA75C);
    (0xA75E, 0xA75E); (0xA760, 0xA760); (0xA762, 0xA762); (0xA764, 0xA764);
    (0xA766, 0xA766); (0xA768, 0xA768); (0xA76A, 0xA76A); (0xA76C, 0xA76C);
    (0xA76E, 0xA76E); (0xA779, 0xA779); (0xA77B, 0xA77B); (0xA77D, 0xA77E);
    (0xA780, 0xA780); (0xA782, 0xA782); (0xA784, 0xA784); (0xA786, 0xA786);
    (0xA78B, 0xA78B); (0xA78D, 0xA78D); (0xA790, 0xA790); (0xA792, 0xA792);
    (0xA796, 0xA796); (0xA798, 0xA798); (0xA79A, 0xA79A); (0xA79C, 0xA79C);
    (0xA79E, 0xA79E); (0xA7A0, 0xA7A0); (0xA7A2, 0xA7A2); (0xA7A4, 0xA7A4);
    (0xA7A6, 0xA7A6); (0xA7A8, 0xA7A8); (0xA7AA, 0xA7AE); (0xA7B0, 0xA7B4);
    (0xA7B6, 0xA7B6); (0xA7B8, 0xA7B8); (0xFF21, 0xFF3A); (0x10400, 0x10427);
    (0x104B0, 0x104D3); (0x10C80, 0x10CB2); (0x118A0, 0x118BF);
    (0x16E40, 0x16E5F); (0x1D400, 0x1D419); (0x1D434, 0x1D44D);
    (0x1D468, 0x1D481); (0x1D49C, 0x1D49C); (0x1D49E, 0x1D49F);
    (0x1D4A2, 0x1D4A2); (0x1D4A5, 0x1D4A6); (0x1D4A9, 0x1D4AC);
    (0x1D4AE, 0x1D4B5); (0x1D4D0, 0x1D4E9); (0x1D504, 0x1D505);
    (0x1D507, 0x1D50A); (0x1D50D, 0x1D514); (0x1D516, 0x1D51C);
    (0x1D538, 0x1D539); (0x1D53B, 0x1D53E); (0x1D540, 0x1D544);
    (0x1D546, 0x1D546); (0x1D54A, 0x1D550); (0x1D56C, 0x1D585);
    (0x1D5A0, 0x1D5B9); (0x1D5D4, 0x1D5ED); (0x1D608, 0x1D621);
    (0x1D63C, 0x1D655); (0x1D670, 0x1D689); (0x1D6A8, 0x1D6C0);
    (0x1D6E2, 0x1D6FA); (0x1D71C, 0x1D734); (0x1D756, 0x1D76E);
    (0x1D790, 0x1D7A8); (0x1D7CA, 0x1D7CA); (0x1E900, 0x1E921);
    (0x1F130, 0x1F149); (0x1F150, 0x1F169); (0x1F170, 0x1F189)
  ]%N.

(** Code points of general category Lt (title-case letters). *)
Definition Titlecase_ranges : list (N * N) :=
  [
   (0x1C5, 0x1C5); (0x1C8, 0x1C8); (0x1CB, 0x1CB); (0x1F2, 0x1F2);
    (0x1F88, 0x1F8F); (0x1F98, 0x1F9F); (0x1FA8, 0x1FAF); (0x1FBC, 0x1FBC);
    (0x1FCC, 0x1FCC); (0x1FFC, 0x1FFC)
  ]%N.

(** Code points with the derived property Cased. *)
Definition Cased_ranges : list (N * N) :=
  [
   (0x41, 0x5A); (0x61, 0x7A); (0xAA, 0xAA); (0xB5, 0xB5); (0xBA, 0xBA);
    (0xC0, 0xD6); (0xD8, 0xF6); (0xF8, 0x1BA); (0x1BC, 0x1BF); (0x1C4, 0x293);
    (0x295, 0x2B8); (0x2C0, 0x2C1); (0x2E0, 0x2E4); (0x345, 0x345);
    (0x370, 0x373); (0x376, 0x377); (0x37A, 0x37D); (0x37F, 0x37F);
    (0x386, 0x386); (0x388, 0x38A); (0x38C, 0x38C); (0x38E, 0x3A1);
    (0x3A3, 0x3F5); (0x3F7, 0x481); (0x48A, 0x52F); (0x531, 0x556);
    (0x560, 0x588); (0x10A0, 0x10C5); (0x10C7, 0x10C7); (0x10CD, 0x10CD);
    (0x10D0, 0x10FA); (0x10FD, 0x10FF); (0x13A0, 0x13F5); (0x13F8, 0x13FD);
    (0x1C80, 0x1C88); (0x1C90, 0x1CBA); (0x1CBD, 0x1CBF); (0x1D00, 0x1DBF);
    (0x1E00, 0x1F15); (0x1F18, 0x1F1D); (0x1F20, 0x1F45); (0x1F48, 0x1F4D);
    (0x1F50, 0x1F57); (0x1F59, 0x1F59); (0x1F5B, 0x1F5B); (0x1F5D, 0x1F5D);
    (0x1F5F, 0x1F7D); (0x1F80, 0x1FB4); (0x1FB6, 0x1FBC); (0x1FBE, 0x1FBE);
    (0x1FC2, 0x1FC4); (0x1FC6, 0x1FCC); (0x1FD0, 0x1FD3); (0x1FD6, 0x1FDB);
    (0x1FE0, 0x1FEC); (0x1FF2, 0x1FF4); (0x1FF6, 0x1FFC); (0x2071, 0x2071);
    (0x207F, 0x207F); (0x2090, 0x209C); (0x2102, 0x2102); (0x2107, 0x2107);
    (0x210A, 0x2113); (0x2115, 0x2115); (0x2119, 0x211D); (0x2124, 0x2124);
    (0x2126, 0x2126); (0x2128, 0x2128); (0x212A, 0x212D); (0x212F, 0x2134);
    (0x2139, 0x2139); (0x213C, 0x213F); (0x2145, 0x2149); (0x214E, 0x214E);
    (0x2160, 0x217F); (0x2183, 0x2184); (0x24B6, 0x24E9); (0x2C00, 0x2C2E);
    (0x2C30, 0x2C5E); (0x2C60, 0x2CE4); (0x2CEB, 0x2CEE); (0x2CF2, 0x2CF3);
    (0x2D00, 0x2D25); (0x2D27, 0x2D27); (0x2D2D, 0x2D2D); (0xA640, 0xA66D);
    (0xA680, 0xA69D); (0xA722, 0xA787); (0xA78B, 0xA78E); (0xA790, 0xA7B9);
    (0xA7F8, 0xA7FA); (0xAB30, 0xAB5A); (0xAB5C, 0xAB65); (0xAB70, 0xABBF);
    (0xFB00, 0xFB06); (0xFB13, 0xFB17); (0xFF21, 0xFF3A); (0xFF41, 0xFF5A);
    (0x10400, 0x1044F); (0x104B0, 0x104D3); (0x104D8, 0x104FB);
    (0x10C80, 0x10CB2); (0x10CC0, 0x10CF2); (0x118A0, 0x118DF);
    (0x16E40, 0x16E7F); (0x1D400, 0x1D454); (0x1D456, 0x1D49C);
    (0x1D49E, 0x1D49F); (0x1D4A2, 0x1D4A2); (0x1D4A5, 0x1D4A6);
    (0x1D4A9, 0x1D4AC); (0x1D4AE, 0x1D4B9); (0x1D4BB, 0x1D4BB);
    (0x1D4BD, 0x1D4C3); (0x1D4C5, 0x1D505); (0x1D507, 0x1D50A);
    (0x1D50D, 0x1D514); (0x1D516, 0x1D51C); (0x1D51E, 0x1D539);
    (0x1D53B, 0x1D53E); (0x1D540, 0x1D544); (0x1D546, 0x1D546);
    (0x1D54A, 0x1D550); (0x1D552, 0x1D6A5); (0x1D6A8, 0x1D6C0);
    (0x1D6C2, 0x1D6DA); (0x1D6DC, 0x1D6FA); (0x1D6FC, 0x1D714);
    (0x1D716, 0x1D734); (0x1D736, 0x1D74E); (0x1D750, 0x1D76E);
    (0x1D770, 0x1D788); (0x1D78A, 0x1D7A8); (0x1D7AA, 0x1D7C2);
    (0x1D7C4, 0x1D7CB); (0x1E900, 0x1E943); (0x1F130, 0x1F149);
    (0x1F150, 0x1F169); (0x1F170, 0x1F189)
  ]%N.

(** Code points with the derived property Case_Ignorable. *)
Definition Case_Ignorable_ranges : list (N * N) :=
  [
   (0x27, 0x27); (0x2E, 0x2E); (0x3A, 0x3A); (0x5E, 0x5E); (0x60, 0x60);
    (0xA8, 0xA8); (0xAD, 0xAD); (0xAF, 0xAF); (0xB4, 0xB4); (0xB7, 0xB8);
    (0x2B0, 0x36F); (0x374, 0x375); (0x37A, 0x37A); (0x384, 0x385);
    (0x387, 0x387); (0x483, 0x489); (0x559, 0x559); (0x55F, 0x55F);
    (0x591, 0x5BD); (0x5BF, 0x5BF); (0x5C1, 0x5C2); (0x5C4, 0x5C5);
    (0x5C7, 0x5C7); (0x5F4, 0x5F4); (0x600, 0x605); (0x610, 0x61A);
    (0x61C, 0x61C); (0x640, 0x640); (0x64B, 0x65F); (0x670, 0x670);
    (0x6D6, 0x6DD); (0x6DF, 0x6E8); (0x6EA, 0x6ED); (0x70F, 0x70F);
    (0x711, 0x711); (0x730, 0x74A); (0x7A6, 0x7B0); (0x7EB, 0x7F5);
    (0x7FA, 0x7FA); (0x7FD, 0x7FD); (0x816, 0x82D); (0x859, 0x85B);
    (0x8D3, 0x902); (0x93A, 0x93A); (0x93C, 0x93C); (0x941, 0x948);
    (0x94D, 0x94D); (0x951, 0x957); (0x962, 0x963); (0x971, 0x971);
    (0x981, 0x981); (0x9BC, 0x9BC); (0x9C1, 0x9C4); (0x9CD, 0x9CD);
    (0x9E2, 0x9E3); (0x9FE, 0x9FE); (0xA01, 0xA02); (0xA3C, 0xA3C);
    (0xA41, 0xA42); (0xA47, 0xA48); (0xA4B, 0xA4D); (0xA51, 0xA51);
    (0xA70, 0xA71); (0xA75, 0xA75); (0xA81, 0xA82); (0xABC, 0xABC);
    (0xAC1, 0xAC5); (0xAC7, 0xAC8); (0xACD, 0xACD); (0xAE2, 0xAE3);
    (0xAFA, 0xAFF); (0xB01, 0xB01); (0xB3C, 0xB3C); (0xB3F, 0xB3F);
    (0xB41, 0xB44); (0xB4D, 0xB4D); (0xB56, 0xB56); (0xB62, 0xB63);
    (0xB82, 0xB82); (0xBC0, 0xBC0); (0xBCD, 0xBCD); (0xC00, 0xC00);
    (0xC04, 0xC04); (0xC3E, 0xC40); (0xC46, 0xC48); (0xC4A, 0xC4D);
    (0xC55, 0xC56); (0xC62, 0xC63); (0xC81, 0xC81); (0xCBC, 0xCBC);
    (0xCBF, 0xCBF); (0xCC6, 0xCC6); (0xCCC, 0xCCD); (0xCE2, 0xCE3);
    (0xD00, 0xD01); (0xD3B, 0xD3C); (0xD41, 0xD44); (0xD4D, 0xD4D);
    (0xD62, 0xD63); (0xDCA, 0xDCA); (0xDD2, 0xDD4); (0xDD6, 0xDD6);
    (0xE31, 0xE31); (0xE34, 0xE3A); (0xE46, 0xE4E); (0xEB1, 0xEB1);
    (0xEB4, 0xEB9); (0xEBB, 0xEBC); (0xEC6, 0xEC6); (0xEC8, 0xECD);
    (0xF18, 0xF19); (0xF35, 0xF35); (0xF37, 0xF37); (0xF39, 0xF39);
    (0xF71, 0xF7E); (0xF80, 0xF84); (0xF86, 0xF87); (0xF8D, 0xF97);
    (0xF99, 0xFBC); (0xFC6, 0xFC6); (0x102D, 0x1030); (0x1032, 0x1037);
    (0x1039, 0x103A); (0x103D, 0x103E); (0x1058, 0x1059); (0x105E, 0x1060);
    (0x1071, 0x1074); (0x1082, 0x1082); (0x1085, 0x1086); (0x108D, 0x108D);
    (0x109D, 0x109D); (0x10FC, 0x10FC); (0x135D, 0x135F); (0x1712, 0x1714);
    (0x1732, 0x1733); (0x1752, 0x1753); (0x1772, 0x1773); (0x17B4, 0x17B5);
    (0x17B7, 0x17BD); (0x17C6, 0x17C6); (0x17C9, 0x17D3); (0x17D7, 0x17D7);
    (0x17DD, 0x17DD); (0x180B, 0x180E); (0x1843, 0x1843); (0x1885, 0x1886);
    (0x18A9, 0x18A9); (0x1920, 0x1922); (0x1927, 0x1928); (0x1932, 0x1932);
    (0x1939, 0x193B); (0x1A17, 0x1A18); (0x1A1B, 0x1A1B); (0x1A56, 0x1A56);
    (0x1A58, 0x1A5E); (0x1A60, 0x1A60); (0x1A62, 0x1A62); (0x1A65, 0x1A6C);
    (0x1A73, 0x1A7C); (0x1A7F, 0x1A7F); (0x1AA7, 0x1AA7); (0x1AB0, 0x1ABE);
    (0x1B00, 0x1B03); (0x1B34, 0x1B34); (0x1B36, 0x1B3A); (0x1B3C, 0x1B3C);
    (0x1B42, 0x1B42); (0x1B6B, 0x1B73); (0x1B80, 0x1B81); (0x1BA2, 0x1BA5);
    (0x1BA8, 0x1BA9); (0x1BAB, 0x1BAD); (0x1BE6, 0x1BE6); (0x1BE8, 0x1BE9);
    (0x1BED, 0x1BED); (0x1BEF, 0x1BF1); (0x1C2C, 0x1C33); (0x1C36, 0x1C37);
    (0x1C78, 0x1C7D); (0x1CD0, 0x1CD2); (0x1CD4, 0x1CE0); (0x1CE2, 0x1CE8);
    (0x1CED, 0x1CED); (0x1CF4, 0x1CF4); (0x1CF8, 0x1CF9); (0x1D2C, 0x1D6A);
    (0x1D78, 0x1D78); (0x1D9B, 0x1DF9); (0x1DFB, 0x1DFF); (0x1FBD, 0x1FBD);
    (0x1FBF, 0x1FC1); (0x1FCD, 0x1FCF); (0x1FDD, 0x1FDF); (0x1FED, 0x1FEF);
    (0x1FFD, 0x1FFE); (0x200B, 0x200F); (0x2018, 0x2019); (0x2024, 0x2024);
    (0x2027, 0x2027); (0x202A, 0x202E); (0x2060, 0x2064); (0x2066, 0x206F);
    (0x2071, 0x2071); (0x207F, 0x207F); (0x2090, 0x209C); (0x20D0, 0x20F0);
    (0x2C7C, 0x2C7D); (0x2CEF, 0x2CF1); (0x2D6F, 0x2D6F); (0x2D7F, 0x2D7F);
    (0x2DE0, 0x2DFF); (0x2E2F, 0x2E2F); (0x3005, 0x3005); (0x302A, 0x302D);
    (0x3031, 0x3035); (0x303B, 0x303B); (0x3099, 0x309E); (0x30FC, 0x30FE);
    (0xA015, 0xA015); (0xA4F8, 0xA4FD); (0xA60C, 0xA60C); (0xA66F, 0xA672);
    (0xA674, 0xA67D); (0xA67F, 0xA67F); (0xA69C, 0xA69F); (0xA6F0, 0xA6F1);
    (0xA700, 0xA721); (0xA770, 0xA770); (0xA788, 0xA78A); (0xA7F8, 0xA7F9);
    (0xA802, 0xA802); (0xA806, 0xA806); (0xA80B, 0xA80B); (0xA825, 0xA826);
    (0xA8C4, 0xA8C5); (0xA8E0, 0xA8F1); (0xA8FF, 0xA8FF); (0xA926, 0xA92D);
    (0xA947, 0xA951); (0xA980, 0xA982); (0xA9B3, 0xA9B3); (0xA9B6, 0xA9B9);
    (0xA9BC, 0xA9BD); (0xA9CF, 0xA9CF); (0xA9E5, 0xA9E6); (0xAA29, 0xAA2E);
    (0xAA31, 0xAA32); (0xAA35, 0xAA36); (0xAA43, 0xAA43); (0xAA4C, 0xAA4C);
    (0xAA70, 0xAA70); (0xAA7C, 0xAA7C); (0xAAB0, 0xAAB0); (0xAAB2, 0xAAB4);
    (0xAAB7, 0xAAB8); (0xAABE, 0xAABF); (0xAAC1, 0xAAC1); (0xAADD, 0xAADD);
    (0xAAEC, 0xAAED); (0xAAF3, 0xAAF4); (0xAAF6, 0xAAF6); (0xAB5B, 0xAB5F);
    (0xABE5, 0xABE5); (0xABE8, 0xABE8); (0xABED, 0xABED); (0xFB1E, 0xFB1E);
    (0xFBB2, 0xFBC1); (0xFE00, 0xFE0F); (0xFE13, 0xFE13); (0xFE20, 0xFE2F);
    (0xFE52, 0xFE52); (0xFE55, 0xFE55); (0xFEFF, 0xFEFF); (0xFF07, 0xFF07);
    (0xFF0E, 0xFF0E); (0xFF1A, 0xFF1A); (0xFF3E, 0xFF3E); (0xFF40, 0xFF40);
    (0xFF70, 0xFF70); (0xFF9E, 0xFF9F); (0xFFE3, 0xFFE3); (0xFFF9, 0xFFFB);
    (0x101FD, 0x101FD); (0x102E0, 0x102E0); (0x10376, 0x1037A);
    (0x10A01, 0x10A03); (0x10A05, 0x10A06); (0x10A0C, 0x10A0F);
    (0x10A38, 0x10A3A); (0x10A3F, 0x10A3F); (0x10AE5, 0x10AE6);
    (0x10D24, 0x10D27); (0x10F46, 0x10F50); (0x11001, 0x11001);
    (0x11038, 0x11046); (0x1107F, 0x11081); (0x110B3, 0x110B6);
    (0x110B9, 0x110BA); (0x110BD, 0x110BD); (0x110CD, 0x110CD);
    (0x11100, 0x11102); (0x11127, 0x1112B); (0x1112D, 0x11134);
    (0x11173, 0x11173); (0x11180, 0x11181); (0x111B6, 0x111BE);
    (0x111C9, 0x111CC); (0x1122F, 0x11231); (0x11234, 0x11234);
    (0x11236, 0x11237); (0x1123E, 0x1123E); (0x112DF, 0x112DF);
    (0x112E3, 0x112EA); (0x11300, 0x11301); (0x1133B, 0x1133C);
    (0x11340, 0x11340); (0x11366, 0x1136C); (0x11370, 0x11374);
    (0x11438, 0x1143F); (0x11442, 0x11444); (0x11446, 0x11446);
    (0x1145E, 0x1145E); (0x114B3, 0x114B8); (0x114BA, 0x114BA);
    (0x114BF, 0x114C0); (0x114C2, 0x114C3); (0x115B2, 0x115B5);
    (0x115BC, 0x115BD); (0x115BF, 0x115C0); (0x115DC, 0x115DD);
    (0x11633, 0x1163A); (0x1163D, 0x1163D); (0x1163F, 0x11640);
    (0x116AB, 0x116AB); (0x116AD, 0x116AD); (0x116B0, 0x116B5);
    (0x116B7, 0x116B7); (0x1171D, 0x1171F); (0x11722, 0x11725);
    (0x11727, 0x1172B); (0x1182F, 0x11837); (0x11839, 0x1183A);
    (0x11A01, 0x11A0A); (0x11A33, 0x11A38); (0x11A3B, 0x11A3E);
    (0x11A47, 0x11A47); (0x11A51, 0x11A56); (0x11A59, 0x11A5B);
    (0x11A8A, 0x11A96); (0x11A98, 0x11A99); (0x11C30, 0x11C36);
    (0x11C38, 0x11C3D); (0x11C3F, 0x11C3F); (0x11C92, 0x11CA7);
    (0x11CAA, 0x11CB0); (0x11CB2, 0x11CB3); (0x11CB5, 0x11CB6);
    (0x11D31, 0x11D36); (0x11D3A, 0x11D3A); (0x11D3C, 0x11D3D);
    (0x11D3F, 0x11D45); (0x11D47, 0x11D47); (0x11D90, 0x11D91);
    (0x11D95, 0x11D95); (0x11D97, 0x11D97); (0x11EF3, 0x11EF4);
    (0x16AF0, 0x16AF4); (0x16B30, 0x16B36); (0x16B40, 0x16B43);
    (0x16F8F, 0x16F9F); (0x16FE0, 0x16FE1); (0x1BC9D, 0x1BC9E);
    (0x1BCA0, 0x1BCA3); (0x1D167, 0x1D169); (0x1D173, 0x1D182);
    (0x1D185, 0x1D18B); (0x1D1AA, 0x1D1AD); (0x1D242, 0x1D244);
    (0x1DA00, 0x1DA36); (0x1DA3B, 0x1DA6C); (0x1DA75, 0x1DA75);
    (0x1DA84, 0x1DA84); (0x1DA9B, 0x1DA9F); (0x1DAA1, 0x1DAAF);
    (0x1E000, 0x1E006); (0x1E008, 0x1E018); (0x1E01B, 0x1E021);
    (0x1E023, 0x1E024); (0x1E026, 0x1E02A); (0x1E8D0, 0x1E8D6);
    (0x1E944, 0x1E94A); (0x1F3FB, 0x1F3FF); (0xE0001, 0xE0001);
    (0xE0020, 0xE007F); (0xE0100, 0xE01EF)
  ]%N.

(** The simple lower-case mappings, grouped into runs [(first, last,
    image of first)]: within a run the image moves with the code point. *)
Definition Lowercase_Mapping : list (N * N * N) :=
  [
   (0x41, 0x5A, 0x61); (0xC0, 0xD6, 0xE0); (0xD8, 0xDE, 0xF8);
    (0x100, 0x100, 0x101); (0x102, 0x102, 0x103); (0x104, 0x104, 0x105);
    (0x106, 0x106, 0x107); (0x108, 0x108, 0x109); (0x10A, 0x10A, 0x10B);
    (0x10C, 0x10C, 0x10D); (0x10E, 0x10E, 0x10F); (0x110, 0x110, 0x111);
    (0x112, 0x112, 0x113); (0x114, 0x114, 0x115); (0x116, 0x116, 0x117);
    (0x118, 0x118, 0x119); (0x11A, 0x11A, 0x11B); (0x11C, 0x11C, 0x11D);
    (0x11E, 0x11E, 0x11F); (0x120, 0x120, 0x121); (0x122, 0x122, 0x123);
    (0x124, 0x124, 0x125); (0x126, 0x126, 0x127); (0x128, 0x128, 0x129);
    (0x12A, 0x12A, 0x12B); (0x12C, 0x12C, 0x12D); (0x12E, 0x12E, 0x12F);
    (0x132, 0x132, 0x133); (0x134, 0x134, 0x135); (0x136, 0x136, 0x137);
    (0x139, 0x139, 0x13A); (0x13B, 0x13B, 0x13C); (0x13D, 0x13D, 0x13E);
    (0x13F, 0x13F, 0x140); (0x141, 0x141, 0x142); (0x143, 0x143, 0x144);
    (0x145, 0x145, 0x146); (0x147, 0x147, 0x148); (0x14A, 0x14A, 0x14B);
    (0x14C, 0x14C, 0x14D); (0x14E, 0x14E, 0x14F); (0x150, 0x150, 0x151);
    (0x152, 0x152, 0x153); (0x154, 0x154, 0x155); (0x156, 0x156, 0x157);
    (0x158, 0x158, 0x159); (0x15A, 0x15A, 0x15B); (0x15C, 0x15C, 0x15D);
    (0x15E, 0x15E, 0x15F); (0x160, 0x160, 0x161); (0x162, 0x162, 0x163);
    (0x164, 0x164, 0x165); (0x166, 0x166, 0x167); (0x168, 0x168, 0x169);
    (0x16A, 0x16A, 0x16B); (0x16C, 0x16C, 0x16D); (0x16E, 0x16E, 0x16F);
    (0x170, 0x170, 0x171); (0x172, 0x172, 0x173); (0x174, 0x174, 0x175);
    (0x176, 0x176, 0x177); (0x178, 0x178, 0xFF); (0x179, 0x179, 0x17A);
    (0x17B, 0x17B, 0x17C); (0x17D, 0x17D, 0x17E); (0x181, 0x181, 0x253);
    (0x182, 0x182, 0x183); (0x184, 0x184, 0x185); (0x186, 0x186, 0x254);
    (0x187, 0x187, 0x188); (0x189, 0x18A, 0x256); (0x18B, 0x18B, 0x18C);
    (0x18E, 0x18E, 0x1DD); (0x18F, 0x18F, 0x259); (0x190, 0x190, 0x25B);
    (0x191, 0x191, 0x192); (0x193, 0x193, 0x260); (0x194, 0x194, 0x263);
    (0x196, 0x196, 0x269); (0x197, 0x197, 0x268); (0x198, 0x198, 0x199);
    (0x19C, 0x19C, 0x26F); (0x19D, 0x19D, 0x272); (0x19F, 0x19F, 0x275);
    (0x1A0, 0x1A0, 0x1A1); (0x1A2, 0x1A2, 0x1A3); (0x1A4, 0x1A4, 0x1A5);
    (0x1A6, 0x1A6, 0x280); (0x1A7, 0x1A7, 0x1A8); (0x1A9, 0x1A9, 0x283);
    (0x1AC, 0x1AC, 0x1AD); (0x1AE, 0x1AE, 0x288); (0x1AF, 0x1AF, 0x1B0);
    (0x1B1, 0x1B2, 0x28A); (0x1B3, 0x1B3, 0x1B4); (0x1B5, 0x1B5, 0x1B6);
    (0x1B7, 0x1B7, 0x292); (0x1B8, 0x1B8, 0x1B9); (0x1BC, 0x1BC, 0x1BD);
    (0x1C4, 0x1C4, 0x1C6); (0x1C5, 0x1C5, 0x1C6); (0x1C7, 0x1C7, 0x1C9);
    (0x1C8, 0x1C8, 0x1C9); (0x1CA, 0x1CA, 0x1CC); (0x1CB, 0x1CB, 0x1CC);
    (0x1CD, 0x1CD, 0x1CE); (0x1CF, 0x1CF, 0x1D0); (0x1D1, 0x1D1, 0x1D2);
    (0x1D3, 0x1D3, 0x1D4); (0x1D5, 0x1D5, 0x1D6); (0x1D7, 0x1D7, 0x1D8);
    (0x1D9, 0x1D9, 0x1DA); (0x1DB, 0x1DB, 0x1DC); (0x1DE, 0x1DE, 0x1DF);
    (0x1E0, 0x1E0, 0x1E1); (0x1E2, 0x1E2, 0x1E3); (0x1E4, 0x1E4, 0x1E5);
    (0x1E6, 0x1E6, 0x1E7); (0x1E8, 0x1E8, 0x1E9); (0x1EA, 0x1EA, 0x1EB);
    (0x1EC, 0x1EC, 0x1ED); (0x1EE, 0x1EE, 0x1EF); (0x1F1, 0x1F1, 0x1F3);
    (0x1F2, 0x1F2, 0x1F3); (0x1F4, 0x1F4, 0x1F5); (0x1F6, 0x1F6, 0x195);
    (0x1F7, 0x1F7, 0x1BF); (0x1F8, 0x1F8, 0x1F9); (0x1FA, 0x1FA, 0x1FB);
    (0x1FC, 0x1FC, 0x1FD); (0x1FE, 0x1FE, 0x1FF); (0x200, 0x200, 0x201);
    (0x202, 0x202, 0x203); (0x204, 0x204, 0x205); (0x206, 0x206, 0x207);
    (0x208, 0x208, 0x209); (0x20A, 0x20A, 0x20B); (0x20C, 0x20C, 0x20D);
    (0x20E, 0x20E, 0x20F); (0x210, 0x210, 0x211); (0x212, 0x212, 0x213);
    (0x214, 0x214, 0x215); (0x216, 0x216, 0x217); (0x218, 0x218, 0x219);
    (0x21A, 0x21A, 0x21B); (0x21C, 0x21C, 0x21D); (0x21E, 0x21E, 0x21F);
    (0x220, 0x220, 0x19E); (0x222, 0x222, 0x223); (0x224, 0x224, 0x225);
    (0x226, 0x226, 0x227); (0x228, 0x228, 0x229); (0x22A, 0x22A, 0x22B);
    (0x22C, 0x22C, 0x22D); (0x22E, 0x22E, 0x22F); (0x230, 0x230, 0x231);
    (0x232, 0x232, 0x233); (0x23A, 0x23A, 0x2C65); (0x23B, 0x23B, 0x23C);
    (0x23D, 0x23D, 0x19A); (0x23E, 0x23E, 0x2C66); (0x241, 0x241, 0x242);
    (0x243, 0x243, 0x180); (0x244, 0x244, 0x289); (0x245, 0x245, 0x28C);
    (0x246, 0x246, 0x247); (0x248, 0x248, 0x249); (0x24A, 0x24A, 0x24B);
    (0x24C, 0x24C, 0x24D); (0x24E, 0x24E, 0x24F); (0x370, 0x370, 0x371);
    (0x372, 0x372, 0x373); (0x376, 0x376, 0x377); (0x37F, 0x37F, 0x3F3);
    (0x386, 0x386, 0x3AC); (0x388, 0x38A, 0x3AD); (0x38C, 0x38C, 0x3CC);
    (0x38E, 0x38F, 0x3CD); (0x391, 0x3A1, 0x3B1); (0x3A3, 0x3AB, 0x3C3);
    (0x3CF, 0x3CF, 0x3D7); (0x3D8, 0x3D8, 0x3D9); (0x3DA, 0x3DA, 0x3DB);
    (0x3DC, 0x3DC, 0x3DD); (0x3DE, 0x3DE, 0x3DF); (0x3E0, 0x3E0, 0x3E1);
    (0x3E2, 0x3E2, 0x3E3); (0x3E4, 0x3E4, 0x3E5); (0x3E6, 0x3E6, 0x3E7);
    (0x3E8, 0x3E8, 0x3E9); (0x3EA, 0x3EA, 0x3EB); (0x3EC, 0x3EC, 0x3ED);
    (0x3EE, 0x3EE, 0x3EF); (0x3F4, 0x3F4, 0x3B8); (0x3F7, 0x3F7, 0x3F8);
    (0x3F9, 0x3F9, 0x3F2); (0x3FA, 0x3FA, 0x3FB); (0x3FD, 0x3FF, 0x37B);
    (0x400, 0x40F, 0x450); (0x410, 0x42F, 0x430); (0x460, 0x460, 0x461);
    (0x462, 0x462, 0x463); (0x464, 0x464, 0x465); (0x466, 0x466, 0x467);
    (0x468, 0x468, 0x469); (0x46A, 0x46A, 0x46B); (0x46C, 0x46C, 0x46D);
    (0x46E, 0x46E, 0x46F); (0x470, 0x470, 0x471); (0x472, 0x472, 0x473);
    (0x474, 0x474, 0x475); (0x476, 0x476, 0x477); (0x478, 0x478, 0x479);
    (0x47A, 0x47A, 0x47B); (0x47C, 0x47C, 0x47D); (0x47E, 0x47E, 0x47F);
    (0x480, 0x480, 0x481); (0x48A, 0x48A, 0x48B); (0x48C, 0x48C, 0x48D);
    (0x48E, 0x48E, 0x48F); (0x490, 0x490, 0x491); (0x492, 0x492, 0x493);
    (0x494, 0x494, 0x495); (0x496, 0x496, 0x497); (0x498, 0x498, 0x499);
    (0x49A, 0x49A, 0x49B); (0x49C, 0x49C, 0x49D); (0x49E, 0x49E, 0x49F);
    (0x4A0, 0x4A0, 0x4A1); (0x4A2, 0x4A2, 0x4A3); (0x4A4, 0x4A4, 0x4A5);
    (0x4A6, 0x4A6, 0x4A7); (0x4A8, 0x4A8, 0x4A9); (0x4AA, 0x4AA, 0x4AB);
    (0x4AC, 0x4AC, 0x4AD); (0x4AE, 0x4AE, 0x4AF); (0x4B0, 0x4B0, 0x4B1);
    (0x4B2, 0x4B2, 0x4B3); (0x4B4, 0x4B4, 0x4B5); (0x4B6, 0x4B6, 0x4B7);
    (0x4B8, 0x4B8, 0x4B9); (0x4BA, 0x4BA, 0x4BB); (0x4BC, 0x4BC, 0x4BD);
    (0x4BE, 0x4BE, 0x4BF); (0x4C0, 0x4C0, 0x4CF); (0x4C1, 0x4C1, 0x4C2);
    (0x4C3, 0x4C3, 0x4C4); (0x4C5, 0x4C5, 0x4C6); (0x4C7, 0x4C7, 0x4C8);
    (0x4C9, 0x4C9, 0x4CA); (0x4CB, 0x4CB, 0x4CC); (0x4CD, 0x4CD, 0x4CE);
    (0x4D0, 0x4D0, 0x4D1); (0x4D2, 0x4D2, 0x4D3); (0x4D4, 0x4D4, 0x4D5);
    (0x4D6, 0x4D6, 0x4D7); (0x4D8, 0x4D8, 0x4D9); (0x4DA, 0x4DA, 0x4DB);
    (0x4DC, 0x4DC, 0x4DD); (0x4DE, 0x4DE, 0x4DF); (0x4E0, 0x4E0, 0x4E1);
    (0x4E2, 0x4E2, 0x4E3); (0x4E4, 0x4E4, 0x4E5); (0x4E6, 0x4E6, 0x4E7);
    (0x4E8, 0x4E8, 0x4E9); (0x4EA, 0x4EA, 0x4EB); (0x4EC, 0x4EC, 0x4ED);
    (0x4EE, 0x4EE, 0x4EF); (0x4F0, 0x4F0, 0x4F1); (0x4F2, 0x4F2, 0x4F3);
    (0x4F4, 0x4F4, 0x4F5); (0x4F6, 0x4F6, 0x4F7); (0x4F8, 0x4F8, 0x4F9);
    (0x4FA, 0x4FA, 0x4FB); (0x4FC, 0x4FC, 0x4FD); (0x4FE, 0x4FE, 0x4FF);
    (0x500, 0x500, 0x501); (0x502, 0x502, 0x503); (0x504, 0x504, 0x505);
    (0x506, 0x506, 0x507); (0x508, 0x508, 0x509); (0x50A, 0x50A, 0x50B);
    (0x50C, 0x50C, 0x50D); (0x50E, 0x50E, 0x50F); (0x510, 0x510, 0x511);
    (0x512, 0x512, 0x513); (0x514, 0x514, 0x515); (0x516, 0x516, 0x517);
    (0x518, 0x518, 0x519); (0x51A, 0x51A, 0x51B); (0x51C, 0x51C, 0x51D);
    (0x51E, 0x51E, 0x51F); (0x520, 0x520, 0x521); (0x522, 0x522, 0x523);
    (0x524, 0x524, 0x525); (0x526, 0x526, 0x527); (0x528, 0x528, 0x529);
    (0x52A, 0x52A, 0x52B); (0x52C, 0x52C, 0x52D); (0x52E, 0x52E, 0x52F);
    (0x531, 0x556, 0x561); (0x10A0, 0x10C5, 0x2D00); (0x10C7, 0x10C7, 0x2D27);
    (0x10CD, 0x10CD, 0x2D2D); (0x13A0, 0x13EF, 0xAB70);
    (0x13F0, 0x13F5, 0x13F8); (0x1C90, 0x1CBA, 0x10D0);
    (0x1CBD, 0x1CBF, 0x10FD); (0x1E00, 0x1E00, 0x1E01);
    (0x1E02, 0x1E02, 0x1E03); (0x1E04, 0x1E04, 0x1E05);
    (0x1E06, 0x1E06, 0x1E07); (0x1E08, 0x1E08, 0x1E09);
    (0x1E0A, 0x1E0A, 0x1E0B); (0x1E0C, 0x1E0C, 0x1E0D);
    (0x1E0E, 0x1E0E, 0x1E0F); (0x1E10, 0x1E10, 0x1E11);
    (0x1E12, 0x1E12, 0x1E13); (0x1E14, 0x1E14, 0x1E15);
    (0x1E16, 0x1E16, 0x1E17); (0x1E18, 0x1E18, 0x1E19);
    (0x1E1A, 0x1E1A, 0x1E1B); (0x1E1C, 0x1E1C, 0x1E1D);
    (0x1E1E, 0x1E1E, 0x1E1F); (0x1E20, 0x1E20, 0x1E21);
    (0x1E22, 0x1E22, 0x1E23); (0x1E24, 0x1E24, 0x1E25);
    (0x1E26, 0x1E26, 0x1E27); (0x1E28, 0x1E28, 0x1E29);
    (0x1E2A, 0x1E2A, 0x1E2B); (0x1E2C, 0x1E2C, 0x1E2D);
    (0x1E2E, 0x1E2E, 0x1E2F); (0x1E30, 0x1E30, 0x1E31);
    (0x1E32, 0x1E32, 0x1E33); (0x1E34, 0x1E34, 0x1E35);
    (0x1E36, 0x1E36, 0x1E37); (0x1E38, 0x1E38, 0x1E39);
    (0x1E3A, 0x1E3A, 0x1E3B); (0x1E3C, 0x1E3C, 0x1E3D);
    (0x1E3E, 0x1E3E, 0x1E3F); (0x1E40, 0x1E40, 0x1E41);
    (0x1E42, 0x1E42, 0x1E43); (0x1E44, 0x1E44, 0x1E45);
    (0x1E46, 0x1E46, 0x1E47); (0x1E48, 0x1E48, 0x1E49);
    (0x1E4A, 0x1E4A, 0x1E4B); (0x1E4C, 0x1E4C, 0x1E4D);
    (0x1E4E, 0x1E4E, 0x1E4F); (0x1E50, 0x1E50, 0x1E51);
    (0x1E52, 0x1E52, 0x1E53); (0x1E54, 0x1E54, 0x1E55);
    (0x1E56, 0x1E56, 0x1E57); (0x1E58, 0x1E58, 0x1E59);
    (0x1E5A, 0x1E5A, 0x1E5B); (0x1E5C, 0x1E5C, 0x1E5D);
    (0x1E5E, 0x1E5E, 0x1E5F); (0x1E60, 0x1E60, 0x1E61);
    (0x1E62, 0x1E62, 0x1E63); (0x1E64, 0x1E64, 0x1E65);
    (0x1E66, 0x1E66, 0x1E67); (0x1E68, 0x1E68, 0x1E69);
    (0x1E6A, 0x1E6A, 0x1E6B); (0x1E6C, 0x1E6C, 0x1E6D);
    (0x1E6E, 0x1E6E, 0x1E6F); (0x1E70, 0x1E70, 0x1E71);
    (0x1E72, 0x1E72, 0x1E73); (0x1E74, 0x1E74, 0x1E75);
    (0x1E76, 0x1E76, 0x1E77); (0x1E78, 0x1E78, 0x1E79);
    (0x1E7A, 0x1E7A, 0x1E7B); (0x1E7C, 0x1E7C, 0x1E7D);
    (0x1E7E, 0x1E7E, 0x1E7F); (0x1E80, 0x1E80, 0x1E81);
    (0x1E82, 0x1E82, 0x1E83); (0x1E84, 0x1E84, 0x1E85);
    (0x1E86, 0x1E86, 0x1E87); (0x1E88, 0x1E88, 0x1E89);
    (0x1E8A, 0x1E8A, 0x1E8B); (0x1E8C, 0x1E8C, 0x1E8D);
    (0x1E8E, 0x1E8E, 0x1E8F); (0x1E90, 0x1E90, 0x1E91);
    (0x1E92, 0x1E92, 0x1E93); (0x1E94, 0x1E94, 0x1E95);
    (0x1E9E, 0x1E9E, 0xDF); (0x1EA0, 0x1EA0, 0x1EA1);
    (0x1EA2, 0x1EA2, 0x1EA3); (0x1EA4, 0x1EA4, 0x1EA5);
    (0x1EA6, 0x1EA6, 0x1EA7); (0x1EA8, 0x1EA8, 0x1EA9);
    (0x1EAA, 0x1EAA, 0x1EAB); (0x1EAC, 0x1EAC, 0x1EAD);
    (0x1EAE, 0x1EAE, 0x1EAF); (0x1EB0, 0x1EB0, 0x1EB1);
    (0x1EB2, 0x1EB2, 0x1EB3); (0x1EB4, 0x1EB4, 0x1EB5);
    (0x1EB6, 0x1EB6, 0x1EB7); (0x1EB8, 0x1EB8, 0x1EB9);
    (0x1EBA, 0x1EBA, 0x1EBB); (0x1EBC, 0x1EBC, 0x1EBD);
    (0x1EBE, 0x1EBE, 0x1EBF); (0x1EC0, 0x1EC0, 0x1EC1);
    (0x1EC2, 0x1EC2, 0x1EC3); (0x1EC4, 0x1EC4, 0x1EC5);
    (0x1EC6, 0x1EC6, 0x1EC7); (0x1EC8, 0x1EC8, 0x1EC9);
    (0x1ECA, 0x1ECA, 0x1ECB); (0x1ECC, 0x1ECC, 0x1ECD);
    (0x1ECE, 0x1ECE, 0x1ECF); (0x1ED0, 0x1ED0, 0x1ED1);
    (0x1ED2, 0x1ED2, 0x1ED3); (0x1ED4, 0x1ED4, 0x1ED5);
    (0x1ED6, 0x1ED6, 0x1ED7); (0x1ED8, 0x1ED8, 0x1ED9);
    (0x1EDA, 0x1EDA, 0x1EDB); (0x1EDC, 0x1EDC, 0x1EDD);
    (0x1EDE, 0x1EDE, 0x1EDF); (0x1EE0, 0x1EE0, 0x1EE1);
    (0x1EE2, 0x1EE2, 0x1EE3); (0x1EE4, 0x1EE4, 0x1EE5);
    (0x1EE6, 0x1EE6, 0x1EE7); (0x1EE8, 0x1EE8, 0x1EE9);
    (0x1EEA, 0x1EEA, 0x1EEB); (0x1EEC, 0x1EEC, 0x1EED);
    (0x1EEE, 0x1EEE, 0x1EEF); (0x1EF0, 0x1EF0, 0x1EF1);
    (0x1EF2, 0x1EF2, 0x1EF3); (0x1EF4, 0x1EF4, 0x1EF5);
    (0x1EF6, 0x1EF6, 0x1EF7); (0x1EF8, 0x1EF8, 0x1EF9);
    (0x1EFA, 0x1EFA, 0x1EFB); (0x1EFC, 0x1EFC, 0x1EFD);
    (0x1EFE, 0x1EFE, 0x1EFF); (0x1F08, 0x1F0F, 0x1F00);
    (0x1F18, 0x1F1D, 0x1F10); (0x1F28, 0x1F2F, 0x1F20);
    (0x1F38, 0x1F3F, 0x1F30); (0x1F48, 0x1F4D, 0x1F40);
    (0x1F59, 0x1F59, 0x1F51); (0x1F5B, 0x1F5B, 0x1F53);
    (0x1F5D, 0x1F5D, 0x1F55); (0x1F5F, 0x1F5F, 0x1F57);
    (0x1F68, 0x1F6F, 0x1F60); (0x1F88, 0x1F8F, 0x1F80);
    (0x1F98, 0x1F9F, 0x1F90); (0x1FA8, 0x1FAF, 0x1FA0);
    (0x1FB8, 0x1FB9, 0x1FB0); (0x1FBA, 0x1FBB, 0x1F70);
    (0x1FBC, 0x1FBC, 0x1FB3); (0x1FC8, 0x1FCB, 0x1F72);
    (0x1FCC, 0x1FCC, 0x1FC3); (0x1FD8, 0x1FD9, 0x1FD0);
    (0x1FDA, 0x1FDB, 0x1F76); (0x1FE8, 0x1FE9, 0x1FE0);
    (0x1FEA, 0x1FEB, 0x1F7A); (0x1FEC, 0x1FEC, 0x1FE5);
    (0x1FF8, 0x1FF9, 0x1F78); (0x1FFA, 0x1FFB, 0x1F7C);
    (0x1FFC, 0x1FFC, 0x1FF3); (0x2126, 0x2126, 0x3C9); (0x212A, 0x212A, 0x6B);
    (0x212B, 0x212B, 0xE5); (0x2132, 0x2132, 0x214E);
    (0x2160, 0x216F, 0x2170); (0x2183, 0x2183, 0x2184);
    (0x24B6, 0x24CF, 0x24D0); (0x2C00, 0x2C2E, 0x2C30);
    (0x2C60, 0x2C60, 0x2C61); (0x2C62, 0x2C62, 0x26B);
    (0x2C63, 0x2C63, 0x1D7D); (0x2C64, 0x2C64, 0x27D);
    (0x2C67, 0x2C67, 0x2C68); (0x2C69, 0x2C69, 0x2C6A);
    (0x2C6B, 0x2C6B, 0x2C6C); (0x2C6D, 0x2C6D, 0x251);
    (0x2C6E, 0x2C6E, 0x271); (0x2C6F, 0x2C6F, 0x250); (0x2C70, 0x2C70, 0x252);
    (0x2C72, 0x2C72, 0x2C73); (0x2C75, 0x2C75, 0x2C76);
    (0x2C7E, 0x2C7F, 0x23F); (0x2C80, 0x2C80, 0x2C81);
    (0x2C82, 0x2C82, 0x2C83); (0x2C84, 0x2C84, 0x2C85);
    (0x2C86, 0x2C86, 0x2C87); (0x2C88, 0x2C88, 0x2C89);
    (0x2C8A, 0x2C8A, 0x2C8B); (0x2C8C, 0x2C8C, 0x2C8D);
    (0x2C8E, 0x2C8E, 0x2C8F); (0x2C90, 0x2C90, 0x2C91);
    (0x2C92, 0x2C92, 0x2C93); (0x2C94, 0x2C94, 0x2C95);
    (0x2C96, 0x2C96, 0x2C97); (0x2C98, 0x2C98, 0x2C99);
    (0x2C9A, 0x2C9A, 0x2C9B); (0x2C9C, 0x2C9C, 0x2C9D);
    (0x2C9E, 0x2C9E, 0x2C9F); (0x2CA0, 0x2CA0, 0x2CA1);
    (0x2CA2, 0x2CA2, 0x2CA3); (0x2CA4, 0x2CA4, 0x2CA5);
    (0x2CA6, 0x2CA6, 0x2CA7); (0x2CA8, 0x2CA8, 0x2CA9);
    (0x2CAA, 0x2CAA, 0x2CAB); (0x2CAC, 0x2CAC, 0x2CAD);
    (0x2CAE, 0x2CAE, 0x2CAF); (0x2CB0, 0x2CB0, 0x2CB1);
    (0x2CB2, 0x2CB2, 0x2CB3); (0x2CB4, 0x2CB4, 0x2CB5);
    (0x2CB6, 0x2CB6, 0x2CB7); (0x2CB8, 0x2CB8, 0x2CB9);
    (0x2CBA, 0x2CBA, 0x2CBB); (0x2CBC, 0x2CBC, 0x2CBD);
    (0x2CBE, 0x2CBE, 0x2CBF); (0x2CC0, 0x2CC0, 0x2CC1);
    (0x2CC2, 0x2CC2, 0x2CC3); (0x2CC4, 0x2CC4, 0x2CC5);
    (0x2CC6, 0x2CC6, 0x2CC7); (0x2CC8, 0x2CC8, 0x2CC9);
    (0x2CCA, 0x2CCA, 0x2CCB); (0x2CCC, 0x2CCC, 0x2CCD);
    (0x2CCE, 0x2CCE, 0x2CCF); (0x2CD0, 0x2CD0, 0x2CD1);
    (0x2CD2, 0x2CD2, 0x2CD3); (0x2CD4, 0x2CD4, 0x2CD5);
    (0x2CD6, 0x2CD6, 0x2CD7); (0x2CD8, 0x2CD8, 0x2CD9);
    (0x2CDA, 0x2CDA, 0x2CDB); (0x2CDC, 0x2CDC, 0x2CDD);
    (0x2CDE, 0x2CDE, 0x2CDF); (0x2CE0, 0x2CE0, 0x2CE1);
    (0x2CE2, 0x2CE2, 0x2CE3); (0x2CEB, 0x2CEB, 0x2CEC);
    (0x2CED, 0x2CED, 0x2CEE); (0x2CF2, 0x2CF2, 0x2CF3);
    (0xA640, 0xA640, 0xA641); (0xA642, 0xA642, 0xA643);
    (0xA644, 0xA644, 0xA645); (0xA646, 0xA646, 0xA647);
    (0xA648, 0xA648, 0xA649); (0xA64A, 0xA64A, 0xA64B);
    (0xA64C, 0xA64C, 0xA64D); (0xA64E, 0xA64E, 0xA64F);
    (0xA650, 0xA650, 0xA651); (0xA652, 0xA652, 0xA653);
    (0xA654, 0xA654, 0xA655); (0xA656, 0xA656, 0xA657);
    (0xA658, 0xA658, 0xA659); (0xA65A, 0xA65A, 0xA65B);
    (0xA65C, 0xA65C, 0xA65D); (0xA65E, 0xA65E, 0xA65F);
    (0xA660, 0xA660, 0xA661); (0xA662, 0xA662, 0xA663);
    (0xA664, 0xA664, 0xA665); (0xA666, 0xA666, 0xA667);
    (0xA668, 0xA668, 0xA669); (0xA66A, 0xA66A, 0xA66B);
    (0xA66C, 0xA66C, 0xA66D); (0xA680, 0xA680, 0xA681);
    (0xA682, 0xA682, 0xA683); (0xA684, 0xA684, 0xA685);
    (0xA686, 0xA686, 0xA687); (0xA688, 0xA688, 0xA689);
    (0xA68A, 0xA68A, 0xA68B); (0xA68C, 0xA68C, 0xA68D);
    (0xA68E, 0xA68E, 0xA68F); (0xA690, 0xA690, 0xA691);
    (0xA692, 0xA692, 0xA693); (0xA694, 0xA694, 0xA695);
    (0xA696, 0xA696, 0xA697); (0xA698, 0xA698, 0xA699);
    (0xA69A, 0xA69A, 0xA69B); (0xA722, 0xA722, 0xA723);
    (0xA724, 0xA724, 0xA725); (0xA726, 0xA726, 0xA727);
    (0xA728, 0xA728, 0xA729); (0xA72A, 0xA72A, 0xA72B);
    (0xA72C, 0xA72C, 0xA72D); (0xA72E, 0xA72E, 0xA72F);
    (0xA732, 0xA732, 0xA733); (0xA734, 0xA734, 0xA735);
    (0xA736, 0xA736, 0xA737); (0xA738, 0xA738, 0xA739);
    (0xA73A, 0xA73A, 0xA73B); (0xA73C, 0xA73C, 0xA73D);
    (0xA73E, 0xA73E, 0xA73F); (0xA740, 0xA740, 0xA741);
    (0xA742, 0xA742, 0xA743); (0xA744, 0xA744, 0xA745);
    (0xA746, 0xA746, 0xA747); (0xA748, 0xA748, 0xA749);
    (0xA74A, 0xA74A, 0xA74B); (0xA74C, 0xA74C, 0xA74D);
    (0xA74E, 0xA74E, 0xA74F); (0xA750, 0xA750, 0xA751);
    (0xA752, 0xA752, 0xA753); (0xA754, 0xA754, 0xA755);
    (0xA756, 0xA756, 0xA757); (0xA758, 0xA758, 0xA759);
    (0xA75A, 0xA75A, 0xA75B); (0xA75C, 0xA75C, 0xA75D);
    (0xA75E, 0xA75E, 0xA75F); (0xA760, 0xA760, 0xA761);
    (0xA762, 0xA762, 0xA763); (0xA764, 0xA764, 0xA765);
    (0xA766, 0xA766, 0xA767); (0xA768, 0xA768, 0xA769);
    (0xA76A, 0xA76A, 0xA76B); (0xA76C, 0xA76C, 0xA76D);
    (0xA76E, 0xA76E, 0xA76F); (0xA779, 0xA779, 0xA77A);
    (0xA77B, 0xA77B, 0xA77C); (0xA77D, 0xA77D, 0x1D79);
    (0xA77E, 0xA77E, 0xA77F); (0xA780, 0xA780, 0xA781);
    (0xA782, 0xA782, 0xA783); (0xA784, 0xA784, 0xA785);
    (0xA786, 0xA786, 0xA787); (0xA78B, 0xA78B, 0xA78C);
    (0xA78D, 0xA78D, 0x265); (0xA790, 0xA790, 0xA791);
    (0xA792, 0xA792, 0xA793); (0xA796, 0xA796, 0xA797);
    (0xA798, 0xA798, 0xA799); (0xA79A, 0xA79A, 0xA79B);
    (0xA79C, 0xA79C, 0xA79D); (0xA79E, 0xA79E, 0xA79F);
    (0xA7A0, 0xA7A0, 0xA7A1); (0xA7A2, 0xA7A2, 0xA7A3);
    (0xA7A4, 0xA7A4, 0xA7A5); (0xA7A6, 0xA7A6, 0xA7A7);
    (0xA7A8, 0xA7A8, 0xA7A9); (0xA7AA, 0xA7AA, 0x266);
    (0xA7AB, 0xA7AB, 0x25C); (0xA7AC, 0xA7AC, 0x261); (0xA7AD, 0xA7AD, 0x26C);
    (0xA7AE, 0xA7AE, 0x26A); (0xA7B0, 0xA7B0, 0x29E); (0xA7B1, 0xA7B1, 0x287);
    (0xA7B2, 0xA7B2, 0x29D); (0xA7B3, 0xA7B3, 0xAB53);
    (0xA7B4, 0xA7B4, 0xA7B5); (0xA7B6, 0xA7B6, 0xA7B7);
    (0xA7B8, 0xA7B8, 0xA7B9); (0xFF21, 0xFF3A, 0xFF41);
    (0x10400, 0x10427, 0x10428); (0x104B0, 0x104D3, 0x104D8);
    (0x10C80, 0x10CB2, 0x10CC0); (0x118A0, 0x118BF, 0x118C0);
    (0x16E40, 0x16E5F, 0x16E60); (0x1E900, 0x1E921, 0x1E922)
  ]%N.

(** Upper-case and title-case code points for which Unicode has no
    lower-case counterpart, such as the double-struck capitals and the
    mathematical alphabets. *)
Definition Caseless_capital_ranges : list (N * N) :=
  [
   (0x3D2, 0x3D4); (0x2102, 0x2102); (0x2107, 0x2107); (0x210B, 0x210D);
    (0x2110, 0x2112); (0x2115, 0x2115); (0x2119, 0x211D); (0x2124, 0x2124);
    (0x2128, 0x2128); (0x212C, 0x212D); (0x2130, 0x2131); (0x2133, 0x2133);
    (0x213E, 0x213F); (0x2145, 0x2145); (0x1D400, 0x1D419);
    (0x1D434, 0x1D44D); (0x1D468, 0x1D481); (0x1D49C, 0x1D49C);
    (0x1D49E, 0x1D49F); (0x1D4A2, 0x1D4A2); (0x1D4A5, 0x1D4A6);
    (0x1D4A9, 0x1D4AC); (0x1D4AE, 0x1D4B5); (0x1D4D0, 0x1D4E9);
    (0x1D504, 0x1D505); (0x1D507, 0x1D50A); (0x1D50D, 0x1D514);
    (0x1D516, 0x1D51C); (0x1D538, 0x1D539); (0x1D53B, 0x1D53E);
    (0x1D540, 0x1D544); (0x1D546, 0x1D546); (0x1D54A, 0x1D550);
    (0x1D56C, 0x1D585); (0x1D5A0, 0x1D5B9); (0x1D5D4, 0x1D5ED);
    (0x1D608, 0x1D621); (0x1D63C, 0x1D655); (0x1D670, 0x1D689);
    (0x1D6A8, 0x1D6C0); (0x1D6E2, 0x1D6FA); (0x1D71C, 0x1D734);
    (0x1D756, 0x1D76E); (0x1D790, 0x1D7A8); (0x1D7CA, 0x1D7CA);
    (0x1F130, 0x1F149); (0x1F150, 0x1F169); (0x1F170, 0x1F189)
  ]%N.

Definition is_uppercase (c : N) : bool := in_ranges c Uppercase_ranges.
Definition is_titlecase (c : N) : bool := in_ranges c Titlecase_ranges.
Definition is_cased (c : N) : bool := in_ranges c Cased_ranges.
Definition is_case_ignorable (c : N) : bool := in_ranges c Case_Ignorable_ranges.

(** The run of [Lowercase_Mapping] that holds the code point, if any. *)
Definition lowercase_run (c : N) : option (N * N * N) :=
  find (λ r, (r.1.1 <=? c)%N && (c <=? r.1.2)%N) Lowercase_Mapping.

(** The full lower-case mapping of one code point: the only code point
    whose lower-case form is longer than one code point is U+0130, capital I
    with dot above; a code point without a mapping is its own image. *)
Definition to_lower_full (c : N) : list N :=
  if (c =? 0x130)%N then [0x69; 0x307]%N
  else match lowercase_run c with
       | Some (first, _, image) => [image + (c - first)]%N
       | None => [c]
       end.

End Unicode.

(** ** UTF-8 *)

Module Utf8.

Definition byte (n : N) : ascii := ascii_of_N n.

(** The encoding of one code point, put in front of [rest]. *)
Definition encode_char (c : N) (rest : string) : string :=
  if (c <? 0x80)%N then String (byte c) rest
  else if (c <? 0x800)%N then
    String (byte (0xC0 + c / 0x40)) (String (byte (0x80 + c mod 0x40)) rest)
  else if (c <? 0x10000)%N then
    String (byte (0xE0 + c / 0x1000))
      (String (byte (0x80 + (c / 0x40) mod 0x40))
         (String (byte (0x80 + c mod 0x40)) rest))
  else
    String (byte (0xF0 + c / 0x40000))
      (String (byte (0x80 + (c / 0x1000) mod 0x40))
         (String (byte (0x80 + (c / 0x40) mod 0x40))
            (String (byte (0x80 + c mod 0x40)) rest))).

Definition encode (cps : list N) : string := foldr encode_char "" cps.

(** The payload of a continuation byte [10xxxxxx]. *)
Definition continuation (a : ascii) : option N :=
  let b := N_of_ascii a in
  if (0x80 <=? b)%N && (b <? 0xC0)%N then Some (b - 0x80)%N else None.

(** A decoded code point is accepted when it needs the length it was
    written in and lies below [0x110000]. *)
Definition accept (least c : N) (rest : option (list N)) : option (list N) :=
  if (least <=? c)%N && (c <? 0x110000)%N then cons c <$> rest else None.

(** The code points of a byte string, when it is the UTF-8 encoding of a
    sequence of code points. *)
Fixpoint decode (s : string) : option (list N) :=
  match s with
  | EmptyString => Some []
  | String a0 s1 =>
      let b0 := N_of_ascii a0 in
      if (b0 <? 0x80)%N then cons b0 <$> decode s1
      else if (b0 <? 0xC0)%N then None
      else if (b0 <? 0xE0)%N then
        match s1 with
        | String a1 s2 =>
            match continuation a1 with
            | Some x1 => accept 0x80 ((b0 - 0xC0) * 0x40 + x1) (decode s2)
            | None => None
            end
        | EmptyString => None
        end
      else if (b0 <? 0xF0)%N then
        match s1 with
        | String a1 (String a2 s3) =>
            match continuation a1, continuation a2 with
            | Some x1, Some x2 =>
                accept 0x800 ((b0 - 0xE0) * 0x1000 + x1 * 0x40 + x2) (decode s3)
            | _, _ => None
            end
        | _ => None
        end
      else if (b0 <? 0xF8)%N then
        match s1 with
        | String a1 (String a2 (String a3 s4)) =>
            match continuation a1, continuation a2, continuation a3 with
            | Some x1, Some x2, Some x3 =>
                accept 0x10000
                  ((b0 - 0xF0) * 0x40000 + x1 * 0x1000 + x2 * 0x40 + x3)
                  (decode s4)
            | _, _, _ => None
            end
        | _ => None
        end
      else None
  end.

End Utf8.

(** ** Python string primitives *)

Module Py.

(** The part of a code-point sequence that follows its leading
    case-ignorable code points. *)
Fixpoint skip_case_ignorable (cps : list N) : list N :=
  match cps with
  | c :: rest => if Unicode.is_case_ignorable c then skip_case_ignorable rest else cps
  | [] => []
  end.

(** CPython's [handle_capital_sigma]: capital sigma becomes the final form
    U+03C2 when a cased code point precedes it and none follows it,
    case-ignorable code points being skipped on both sides; otherwise it
    becomes U+03C3.  [before] holds the preceding code points, nearest
    first. *)
Definition handle_capital_sigma (before after : list N) : N :=
  let final_sigma :=
    match skip_case_ignorable before with
    | c :: _ => Unicode.is_cased c
    | [] => false
    end in
  let final_sigma :=
    if final_sigma then
      match skip_case_ignorable after with
      | c :: _ => negb (Unicode.is_cased c)
      | [] => true
      end
    else false in
  if final_sigma then 0x3C2%N else 0x3C3%N.

(** CPython's [do_lower] on the code points of a string. *)
Fixpoint do_lower (before cps : list N) : list N :=
  match cps with
  | [] => []
  | c :: after =>
      (if (c =? 0x3A3)%N then [handle_capital_sigma before after]
       else Unicode.to_lower_full c)
      ++ do_lower (c :: before) after
  end.

(** [s.lower()].  A byte string that is not the encoding of a Python
    string is returned as it is. *)
Definition lower (s : string) : string :=
  match Utf8.decode s with
  | Some cps => Utf8.encode (do_lower [] cps)
  | None => s
  end.

(** [s.startswith(p)]. *)
Fixpoint startswith (s p : string) : bool :=
  match p, s with
  | EmptyString, _ => true
  | String _ _, EmptyString => false
  | String a p', String b s' => if decide (a = b) then startswith s' p' else false
  end.

(** [needle in hay] when [hay] is a [str]: contiguous substring search,
    trying every start position from the left. *)
Fixpoint str_contains (hay needle : string) : bool :=
  startswith hay needle ||
  match hay with
  | EmptyString => false
  | String _ hay' => str_contains hay' needle
  end.

(** [x in s] when [s] is a [set] of [str]: hash-set membership. *)
Definition set_contains (s : gset string) (x : string) : bool :=
  bool_decide (x ∈ s).

End Py.

(** ** Notebook globals *)

(** What the tokenizer reads from a spaCy token. *)
Record Token := mkToken {
  text : string;     (* the surface form *)
  lemma_ : string    (* the dictionary base form *)
}.

(** [nlp(sentence)] returns a [Doc]; iterating it yields its tokens. *)
Definition Language := string → list Token.

(** The three globals that [spacy_tokenizer] reads. *)
Record Globals := mkGlobals {
  nlp : Language;
  stop_words : gset string;
  punctuations : string
}.

(** [nlp.Defaults.stop_words], as printed by the notebook (326 entries). *)
Definition STOP_WORDS_printed : list string :=
  [
    "if"; "behind"; "about"; "rather"; "’s"; "after"; "whether"; "anything";
    "’m"; "as"; "five"; "anyway"; "per"; "my"; "most"; "still"; "whose";
    "should"; "have"; "unless"; "they"; "has"; "‘s"; "once"; "'m"; "no"; "up";
    "elsewhere"; "of"; "at"; "any"; "so"; "throughout"; "together";
    "everywhere"; "ca"; "these"; "hundred"; "four"; "yours"; "whom"; "both";
    "in"; "front"; "others"; "somehow"; "eleven"; "could"; "would"; "became";
    "very"; "do"; "‘m"; "last"; "nobody"; "used"; "formerly"; "meanwhile";
    "why"; "whenever"; "amongst"; "down"; "often"; "besides"; "two"; "go";
    "ten"; "from"; "whereas"; "moreover"; "n't"; "whole"; "many"; "them";
    "sometime"; "anywhere"; "else"; "such"; "make"; "becoming"; "thru";
    "among"; "into"; "indeed"; "itself"; "the"; "latterly"; "otherwise";
    "that"; "themselves"; "also"; "its"; "various"; "did"; "hereafter";
    "some"; "whither"; "me"; "really"; "on"; "however"; "anyhow"; "all"; "re";
    "move"; "never"; "fifty"; "he"; "above"; "thereafter"; "out"; "which";
    "was"; "keep"; "here"; "get"; "one"; "hers"; "when"; "although"; "her";
    "doing"; "may"; "forty"; "without"; "nor"; "give"; "our"; "we";
    "sometimes"; "via"; "namely"; "'s"; "always"; "are"; "least"; "were";
    "onto"; "been"; "it"; "neither"; "same"; "first"; "name"; "seems"; "what";
    "several"; "latter"; "ever"; "full"; "upon"; "now"; "within"; "while";
    "beyond"; "fifteen"; "less"; "'re"; "whoever"; "or"; "but"; "yourself";
    "below"; "'d"; "wherever"; "anyone"; "not"; "beside"; "empty"; "cannot";
    "take"; "twenty"; "become"; "afterwards"; "each"; "quite"; "himself";
    "toward"; "hereby"; "next"; "‘d"; "across"; "am"; "every"; "much";
    "amount"; "more"; "serious"; "eight"; "your"; "'ve"; "another";
    "everyone"; "third"; "for"; "‘ve"; "thereupon"; "again"; "n‘t"; "where";
    "nevertheless"; "an"; "seeming"; "yourselves"; "who"; "she"; "call";
    "using"; "whereupon"; "’ll"; "sixty"; "therefore"; "whatever"; "just";
    "mine"; "thereby"; "yet"; "n’t"; "due"; "myself"; "under"; "something";
    "had"; "since"; "his"; "ours"; "might"; "therein"; "back"; "off"; "will";
    "though"; "enough"; "whereby"; "you"; "becomes"; "‘ll"; "can";
    "somewhere"; "this"; "whereafter"; "further"; "own"; "’re"; "six";
    "regarding"; "i"; "only"; "nothing"; "twelve"; "before"; "see"; "nine";
    "top"; "either"; "until"; "nowhere"; "to"; "put"; "other"; "between";
    "well"; "seem"; "wherein"; "hence"; "us"; "herself"; "except"; "and";
    "someone"; "’d"; "hereupon"; "almost"; "none"; "those"; "ourselves";
    "‘re"; "be"; "part"; "too"; "does"; "him"; "thence"; "former"; "'ll";
    "seemed"; "there"; "thus"; "how"; "then"; "along"; "is"; "made"; "over";
    "side"; "beforehand"; "mostly"; "must"; "please"; "around"; "perhaps";
    "because"; "than"; "three"; "even"; "say"; "against"; "during"; "bottom";
    "’ve"; "herein"; "everything"; "noone"; "a"; "alone"; "being"; "whence";
    "already"; "their"; "with"; "by"; "done"; "few"; "show"; "towards";
    "through"
  ].

Definition STOP_WORDS : gset string := list_to_set STOP_WORDS_printed.

(** [string.punctuation], as printed by the notebook. *)
Definition string_punctuation : string :=
  String "!" (String (ascii_of_nat 34) "#$%&'()*+,-./:;<=>?@[\]^_`{|}~").

(** The notebook state after the cells that load spaCy have run; the
    trained pipeline itself stays a parameter. *)
Definition notebook (pipeline : Language) : Globals :=
  {| nlp := pipeline; stop_words := STOP_WORDS; punctuations := string_punctuation |}.

(** ** The custom tokenizer *)

(** The filter condition
    [token not in stop_words and token not in punctuations]. *)
Definition keep_token (g : Globals) (token : string) : bool :=
  negb (Py.set_contains (stop_words g) token) &&
  negb (Py.str_contains (punctuations g) token).

Definition spacy_tokenizer (g : Globals) (sentence : string) : list string :=
  let doc := nlp g sentence in
  let mytokens := map (λ word, Py.lower (lemma_ word)) doc in
  let mytokens := List.filter (keep_token g) mytokens in
  mytokens.

(** The list comprehension of lower-cased lemmas, before filtering. *)
Definition lemmas_lower (g : Globals) (sentence : string) : list string :=
  map (λ word, Py.lower (lemma_ word)) (nlp g sentence).

(** The analysis of the notebook's two example sentences as a finite table:
    surface forms with their lemmas.  It stands in for the trained
    pipeline wherever a concrete one is needed; every other text is left
    without tokens. *)
Definition example_pipeline : Language := λ sentence,
  if decide (Py.lower sentence = "i am eating apple, i like apple") then
    [mkToken "I" "I"; mkToken "am" "be"; mkToken "eating" "eat";
     mkToken "apple" "apple"; mkToken "," ","; mkToken "I" "I";
     mkToken "like" "like"; mkToken "apple" "apple"]
  else if decide (Py.lower sentence = "i am playing cricket") then
    [mkToken "I" "I"; mkToken "am" "be"; mkToken "playing" "play";
     mkToken "cricket" "cricket"]
  else if decide (sentence = "apple") then [mkToken "apple" "apple"]
  else if decide (sentence = "Wait...") then
    [mkToken "Wait" "wait"; mkToken "..." "..."]
  else [].

(** A token made of punctuation characters only: non-empty, and every
    character is one of the characters of [string.punctuation]. *)
Fixpoint all_punct (s : string) : bool :=
  match s with
  | EmptyString => true
  | String c rest =>
      Py.str_contains string_punctuation (String c EmptyString) && all_punct rest
  end.

Definition punctuation_only (s : string) : bool :=
  negb (bool_decide (s = "")) && all_punct s.

(** ** The count vectorizer *)

Module sklearn.

(** Modelled from the spec: scikit-learn's [CountVectorizer] is an
    external collaborator whose code is not among the sources.  Spec 4.2:
    fit learns a vocabulary (token to column index) from the corpus using
    the tokenizer on each document; transform maps each document to a
    fixed-width row using the learned vocabulary, ignoring tokens not
    present in it; the count variant emits raw occurrence counts per
    column.  Spec 3: rows follow the input order, columns follow the
    vectorizer's convention, which the notebook's recorded
    [vocabulary_] shows to be the sorted order of the terms.  The
    constructor's [lowercase] option (lower-case the document before
    tokenizing) is kept as a field so that statements can range over it. *)
Record CountVectorizer := mkCountVectorizer {
  tokenizer : string → list string;
  lowercase : bool;
  vocabulary_ : gmap string nat
}.

(** Modelled from the spec: the document as handed to the tokenizer, which
    is the raw document or, under the [lowercase] option, its lower-cased
    form. *)
Definition preprocess (lc : bool) (doc : string) : string :=
  if lc then Py.lower doc else doc.

Definition analyze (cv : CountVectorizer) (doc : string) : list string :=
  tokenizer cv (preprocess (lowercase cv) doc).

(** Terms in first-seen order, each once. *)
Fixpoint first_seen (seen : list string) (tokens : list string) : list string :=
  match tokens with
  | [] => seen
  | t :: rest =>
      if bool_decide (t ∈ seen) then first_seen seen rest
      else first_seen (seen ++ [t]) rest
  end.

Definition sort_features (terms : list string) : list string :=
  merge_sort String.le terms.

Definition index_terms (terms : list string) : gmap string nat :=
  list_to_map (zip terms (seq 0 (length terms))).

(** Modelled from the spec: [fit] learns the vocabulary (token to column
    index) by running the tokenizer on each document of the corpus; a
    vocabulary learned before is discarded. *)
Definition fit (cv : CountVectorizer) (raw_documents : list string) : CountVectorizer :=
  let tokens := concat (map (analyze cv) raw_documents) in
  let terms := sort_features (first_seen [] tokens) in
  {| tokenizer := tokenizer cv;
     lowercase := lowercase cv;
     vocabulary_ := index_terms terms |}.

(** Modelled from the spec: one row of raw occurrence counts; for each
    column, the number of the document's tokens that the vocabulary sends
    to it.  Tokens outside the vocabulary are counted nowhere. *)
Definition count_row (cv : CountVectorizer) (doc : string) : list nat :=
  map (λ j, length (filter (λ t, vocabulary_ cv !! t = Some j) (analyze cv doc)))
      (seq 0 (size (vocabulary_ cv))).

(** Modelled from the spec: [transform] maps each document to its row, in
    input order. *)
Definition transform (cv : CountVectorizer) (raw_documents : list string) : list (list nat) :=
  map (count_row cv) raw_documents.

Definition fit_transform (cv : CountVectorizer) (raw_documents : list string)
  : CountVectorizer * list (list nat) :=
  let cv' := fit cv raw_documents in
  (cv', transform cv' raw_documents).

Definition by_index (a b : string * nat) : Prop := a.2 ≤ b.2.

#[global] Instance by_index_dec : RelDecision by_index.
Proof. intros a b. unfold by_index. apply _. Defined.

(** Modelled from the spec: the vocabulary's terms ordered by their column
    index. *)
Definition get_feature_names_out (cv : CountVectorizer) : list string :=
  (merge_sort by_index (map_to_list (vocabulary_ cv))).*1.

(** [(rows, columns)] of a dense matrix. *)
Definition shape (m : list (list nat)) : nat * nat :=
  (length m, match m with [] => 0 | row :: _ => length row end).

End sklearn.

(** [cv = CountVectorizer(tokenizer=spacy_tokenizer)], with the
    [lowercase] option left explicit. *)
Definition cv (g : Globals) (lc : bool) : sklearn.CountVectorizer :=
  {| sklearn.tokenizer := spacy_tokenizer g;
     sklearn.lowercase := lc;
     sklearn.vocabulary_ := ∅ |}.

Definition sentences : list string :=
  ["I am eating apple, I like apple"; "I am playing cricket"].

(** ** The evaluator *)

Module metrics.

(** Modelled from the spec: scikit-learn's [metrics] functions are an
    external collaborator whose code is not among the sources.  Spec 4.4:
    given predicted and true label sequences of equal length, compute
    accuracy (fraction correct) and precision, recall and F1 for the
    positive class; undefined (division-by-zero) cases are handled by
    returning 0 rather than raising.  Labels are the binary [toxic]
    column, [true] standing for the positive class 1; scores are exact
    rationals. *)
Inductive exception := ZeroDivisionError.

Inductive outcome :=
| Returned (score : Q)
| Raised (e : exception).

(** Plain division, which raises on a zero denominator. *)
Definition true_divide (num den : Q) : outcome :=
  if Qeq_bool den 0 then Raised ZeroDivisionError else Returned (num / den)%Q.

(** Modelled from the spec: the guard around it; an undefined ratio is
    reported as 0 instead of raising. *)
Definition guarded_divide (num den : Q) : outcome :=
  match true_divide num den with
  | Returned q => Returned q
  | Raised ZeroDivisionError => Returned 0%Q
  end.

Definition count_pairs (f : bool → bool → bool) (y_true y_pred : list bool) : nat :=
  length (List.filter (λ p : bool * bool, f p.1 p.2) (zip y_true y_pred)).

Definition tp := count_pairs (λ t p, t && p).
Definition fp := count_pairs (λ t p, negb t && p).
Definition fn := count_pairs (λ t p, t && negb p).

Definition Qnat (n : nat) : Q := inject_Z (Z.of_nat n).

(** Modelled from the spec: precision for the positive class, true
    positives over predicted positives. *)
Definition precision_score (y_true y_pred : list bool) : outcome :=
  guarded_divide (Qnat (tp y_true y_pred))
                 (Qnat (tp y_true y_pred + fp y_true y_pred)).

(** Modelled from the spec: recall for the positive class, true positives
    over actual positives. *)
Definition recall_score (y_true y_pred : list bool) : outcome :=
  guarded_divide (Qnat (tp y_true y_pred))
                 (Qnat (tp y_true y_pred + fn y_true y_pred)).

(** Modelled from the spec: F1 for the positive class, the harmonic mean
    of precision and recall. *)
Definition f1_score (y_true y_pred : list bool) : outcome :=
  match precision_score y_true y_pred, recall_score y_true y_pred with
  | Returned p, Returned r => guarded_divide (2 * p * r)%Q (p + r)%Q
  | Raised e, _ => Raised e
  | _, Raised e => Raised e
  end.

(** Modelled from the spec: accuracy, the fraction of positions where the
    prediction is correct. *)
Definition accuracy_score (y_true y_pred : list bool) : outcome :=
  guarded_divide (Qnat (count_pairs Bool.eqb y_true y_pred))
                 (Qnat (length (zip y_true y_pred))).

(** Number of predicted positives and of actual positives. *)
Definition predicted_positives (y_pred : list bool) : nat :=
  length (List.filter id y_pred).

Definition actual_positives (y_true : list bool) : nat :=
  length (List.filter id y_true).

End metrics.

(** ** Case of code points and of strings *)

(** An upper-case or title-case code point. *)
Definition is_capital (c : N) : bool :=
  Unicode.is_uppercase c || Unicode.is_titlecase c.

(** A capital for which Unicode has no lower-case counterpart. *)
Definition is_caseless_capital (c : N) : bool :=
  Unicode.in_ranges c Unicode.Caseless_capital_ranges.

(** The string has an upper-case or title-case character: it is not
    lower-case. *)
Definition has_capital (s : string) : bool :=
  match Utf8.decode s with
  | Some cps => existsb is_capital cps
  | None => false
  end.

(** The string has an upper-case or title-case character that Unicode
    pairs with a lower-case one. *)
Definition has_paired_capital (s : string) : bool :=
  match Utf8.decode s with
  | Some cps => existsb (λ c, is_capital c && negb (is_caseless_capital c)) cps
  | None => false
  end.

Definition not_paired_capital (c : N) : bool :=
  negb (is_capital c && negb (is_caseless_capital c)).

Definition is_code_point (c : N) : bool := (c <? 0x110000)%N.

(** The code point has a lower-case mapping of its own. *)
Definition has_lowercase (c : N) : bool :=
  (c =? 0x130)%N || bool_decide (is_Some (Unicode.lowercase_run c)).

(** The code point is not capital sigma and is its own lower-case form. *)
Definition is_fixed (c : N) : bool :=
  negb (c =? 0x3A3)%N &&
  match Unicode.to_lower_full c with
  | [d] => (d =? c)%N
  | _ => false
  end.

(** The code points [first], ..., [last]. *)
Definition enumerate (first last : N) : list N :=
  (λ i, first + N.of_nat i)%N <$> seq 0 (N.to_nat (last + 1 - first)).

(** [f] holds of every code point of every range. *)
Definition all_in_ranges (f : N → bool) (ranges : list (N * N)) : bool :=
  forallb (λ r, forallb f (enumerate r.1 r.2)) ranges.

(** The images of one run of the lower-case mapping. *)
Definition run_images (r : N * N * N) : list N :=
  (λ c, r.2 + (c - r.1.1))%N <$> enumerate r.1.1 r.1.2.

(** [f] holds of every image of the lower-case mapping. *)
Definition all_images (f : N → bool) : bool :=
  forallb (λ r, forallb f (run_images r)) Unicode.Lowercase_Mapping.

(** A pipeline for a sentence about the complex numbers, whose first token
    is the double-struck capital C (U+2102). *)
Definition field_pipeline : Language := λ sentence,
  if decide (sentence = "ℂ is a field") then
    [mkToken "ℂ" "ℂ"; mkToken "is" "be"; mkToken "a" "a";
     mkToken "field" "field"]
  else [].

(** ** The tokenizer called from notebook cells: state passing *)

(** The loaded pipeline object has internal state of its own (caches, the
    string store); calling it returns the document and the next state. *)
Definition StatefulLanguage (S : Type) : Type := S → string → list Token * S.

(** The part of the kernel's memory that a call of the tokenizer can
    reach: the objects bound to [nlp], [stop_words] and [punctuations]. *)
Record Kernel (S : Type) := mkKernel {
  nlp_object : StatefulLanguage S;
  nlp_state : S;
  stop_words_object : gset string;
  punctuations_object : string
}.

Arguments mkKernel {S} _ _ _ _.
Arguments nlp_object {S} _.
Arguments nlp_state {S} _.
Arguments stop_words_object {S} _.
Arguments punctuations_object {S} _.

(** One call [spacy_tokenizer(sentence)]: the body of the function, with
    the state of the pipeline object threaded through.  The body binds only
    the locals [doc] and [mytokens]; it assigns to no global and calls no
    method of [stop_words]. *)
Definition call_spacy_tokenizer {S} (sentence : string) (k : Kernel S)
  : list string * Kernel S :=
  let '(doc, next) := nlp_object k (nlp_state k) sentence in
  let mytokens := map (λ word, Py.lower (lemma_ word)) doc in
  let mytokens :=
    List.filter
      (λ token, negb (Py.set_contains (stop_words_object k) token) &&
                negb (Py.str_contains (punctuations_object k) token))
      mytokens in
  (mytokens,
   {| nlp_object := nlp_object k;
      nlp_state := next;
      stop_words_object := stop_words_object k;
      punctuations_object := punctuations_object k |}).

(** A run of cells, each calling the tokenizer on one sentence and
    discarding the result. *)
Fixpoint run_calls {S} (history : list string) (k : Kernel S) : Kernel S :=
  match history with
  | [] => k
  | sentence :: later => run_calls later (call_spacy_tokenizer sentence k).2
  end.

(** The globals as the pure embedding sees them in a given kernel state. *)
Definition globals_of {S} (k : Kernel S) : Globals :=
  {| nlp := λ sentence, (nlp_object k (nlp_state k) sentence).1;
     stop_words := stop_words_object k;
     punctuations := punctuations_object k |}.

(** The pipeline's fixed behaviour: the lemmas it assigns to a sentence do
    not depend on its internal state. *)
Definition fixed_behaviour {S} (run : StatefulLanguage S) : Prop :=
  ∀ (σ σ' : S) (sentence : string),
    lemma_ <$> (run σ sentence).1 = lemma_ <$> (run σ' sentence).1.

(** A pipeline object that counts its calls and analyses like
    [example_pipeline]. *)
Definition counting_pipeline : StatefulLanguage nat :=
  λ calls sentence, (example_pipeline sentence, S calls).

Definition counting_kernel : Kernel nat :=
  {| nlp_object := counting_pipeline;
     nlp_state := 0;
     stop_words_object := STOP_WORDS;
     punctuations_object := string_punctuation |}.

(** ** Notions used to state further properties *)

(** The characters of a string, in order. *)
Definition chars (s : string) : list ascii := String.list_ascii_of_string s.

(** An ASCII decimal digit. *)
Definition is_digit (c : ascii) : bool :=
  let n := nat_of_ascii c in (48 <=? n)%nat && (n <=? 57)%nat.

(** The character occurs in at least one of the printed stop words. *)
Definition stop_word_char (c : ascii) : bool :=
  existsb (λ w, bool_decide (c ∈ chars w)) STOP_WORDS_printed.

(** The character occurs neither in a stop word nor in
    [string.punctuation]. *)
Definition foreign_char (c : ascii) : bool :=
  negb (stop_word_char c) && negb (bool_decide (c ∈ chars string_punctuation)).

(** A table pipeline whose document has a white-space token, a number and
    an abbreviation with inner punctuation; used to instantiate the pipeline
    parameter. *)
Definition table_pipeline : Language := λ sentence,
  if decide (sentence = "The U.S.  has 50 states") then
    [mkToken "The" "the"; mkToken "U.S." "U.S."; mkToken " " " ";
     mkToken "has" "have"; mkToken "50" "50"; mkToken "states" "state"]
  else [].

(** The notebook state after one more word has been added to the shared
    stop-word set. *)
Definition notebook_with_stop_word (pipeline : Language) (w : string) : Globals :=
  {| nlp := pipeline;
     stop_words := STOP_WORDS ∪ {[ w ]};
     punctuations := string_punctuation |}.

(** The terms that [fit] finds in a corpus, in column order. *)
Definition fitted_terms (v : sklearn.CountVectorizer) (docs : list string)
  : list string :=
  sklearn.sort_features
    (sklearn.first_seen [] (concat (map (sklearn.analyze v) docs))).

(** Occurrences of a term in a token list. *)
Definition occurrences (term : string) (tokens : list string) : nat :=
  length (filter (λ t, t = term) tokens).

(** * Properties *)

(** ** String primitives *)

Section py_facts.

Lemma startswith_spec s p :
  Py.startswith s p = true ↔ ∃ post, s = p +:+ post.
Proof.
  revert s. induction p as [|a p IH]; intros s.
  - destruct s; (split; [intros _; eexists; reflexivity | done]).
  - destruct s as [|b s]; cbn [Py.startswith].
    + split; [done | intros [post Hpost]; discriminate].
    + case_decide as Hab.
      * subst b. rewrite IH. split.
        -- intros [post ->]. by exists post.
        -- intros [post Hpost]. exists post. by injection Hpost.
      * split; [done|]. intros [post Hpost]. injection Hpost as -> _. done.
Qed.

Lemma str_contains_spec hay needle :
  Py.str_contains hay needle = true ↔
  ∃ pre post, hay = pre +:+ needle +:+ post.
Proof.
  induction hay as [|c hay IH]; cbn [Py.str_contains].
  - rewrite orb_false_r, startswith_spec. split.
    + intros [post ->]. by exists "", post.
    + intros [pre [post Hpp]]. destruct pre; [by exists post | discriminate].
  - rewrite orb_true_iff, startswith_spec, IH. split.
    + intros [[post ->] | [pre [post ->]]].
      * by exists "", post.
      * by exists (String c pre), post.
    + intros [pre [post Hpp]]. destruct pre as [|c' pre].
      * left. by exists post.
      * right. injection Hpp as -> ->. by exists pre, post.
Qed.

Lemma str_contains_empty hay : Py.str_contains hay "" = true.
Proof. destruct hay; reflexivity. Qed.

Lemma set_contains_spec (S : gset string) x :
  Py.set_contains S x = true ↔ x ∈ S.
Proof. unfold Py.set_contains. apply bool_decide_eq_true. Qed.

End py_facts.

(** ** UTF-8 and lower-casing *)

Section utf8_facts.

Local Open Scope N_scope.

#[local] Ltac Zify.zify_post_hook ::= Z.to_euclidean_division_equations.

Lemma N_of_ascii_byte n : n < 256 → N_of_ascii (Utf8.byte n) = n.
Proof. apply N_ascii_embedding. Qed.

Ltac decide_comparisons :=
  repeat (match goal with
          | |- context [N.ltb ?a ?b] => destruct (N.ltb_spec a b); try lia
          | |- context [N.leb ?a ?b] => destruct (N.leb_spec a b); try lia
          end; cbn [andb]).

Lemma decode_encode_char c rest :
  c < 0x110000 →
  Utf8.decode (Utf8.encode_char c rest) = cons c <$> Utf8.decode rest.
Proof.
  intros Hc. unfold Utf8.encode_char.
  destruct (N.ltb_spec c 0x80); [|destruct (N.ltb_spec c 0x800);
    [|destruct (N.ltb_spec c 0x10000)]];
    cbn [Utf8.decode]; unfold Utf8.continuation, Utf8.accept;
    rewrite !N_of_ascii_byte by lia; decide_comparisons; try done;
    do 2 f_equal; lia.
Qed.

End utf8_facts.

Section utf8_more.
Local Open Scope N_scope.

Lemma decode_encode cps :
  Forall (λ c, c < 0x110000) cps → Utf8.decode (Utf8.encode cps) = Some cps.
Proof.
  induction 1 as [|c cps Hc _ IH]; [done|].
  unfold Utf8.encode in *. cbn [foldr]. by rewrite decode_encode_char, IH.
Qed.

Lemma accept_Some least c rest cps :
  Utf8.accept least c rest = Some cps →
  ∃ cps', rest = Some cps' ∧ cps = c :: cps' ∧ c < 0x110000.
Proof.
  unfold Utf8.accept.
  destruct (N.leb_spec least c), (N.ltb_spec c 0x110000); cbn [andb]; try done.
  intros (cps' & -> & ->)%fmap_Some. eauto.
Qed.

Lemma decode_bound_upto n s cps :
  (String.length s ≤ n)%nat → Utf8.decode s = Some cps →
  Forall (λ c, c < 0x110000) cps.
Proof.
  revert s cps. induction n as [|n IH]; intros s cps Hlen Hdec.
  - destruct s; [|cbn in Hlen; lia]. cbn in Hdec. by injection Hdec as <-.
  - destruct s as [|a0 s1]; [cbn in Hdec; by injection Hdec as <-|].
    cbn [Utf8.decode] in Hdec. cbn [String.length] in Hlen.
    destruct (N.ltb_spec (N_of_ascii a0) 0x80).
    { apply fmap_Some in Hdec as (cps' & Hd & ->).
      constructor; [lia|]. apply (IH s1); [lia | done]. }
    repeat case_match; try done;
      apply accept_Some in Hdec as (cps' & Hd & -> & Hc);
      (constructor; [done|]); (eapply IH; [|exact Hd]);
      cbn [String.length] in Hlen; lia.
Qed.

Lemma decode_bound s cps :
  Utf8.decode s = Some cps → Forall (λ c, c < 0x110000) cps.
Proof. by apply (decode_bound_upto (String.length s)). Qed.

End utf8_more.

Section lower_facts.

Local Open Scope N_scope.

Lemma elem_of_enumerate first last c :
  first ≤ c → c ≤ last → c ∈ enumerate first last.
Proof.
  intros Hlo Hhi. unfold enumerate. apply list_elem_of_fmap.
  exists (N.to_nat (c - first)). split; [cbn beta; lia|].
  apply elem_of_seq. lia.
Qed.

Lemma in_ranges_spec c ranges :
  Unicode.in_ranges c ranges = true ↔
  ∃ r, r ∈ ranges ∧ r.1 ≤ c ∧ c ≤ r.2.
Proof.
  unfold Unicode.in_ranges. rewrite existsb_exists. split.
  - intros [r [Hr [H1%N.leb_le H2%N.leb_le]%andb_true_iff]]. exists r.
    by rewrite list_elem_of_In.
  - intros [r [Hr [H1%N.leb_le H2%N.leb_le]]]. exists r.
    rewrite <- list_elem_of_In. split; [done|]. by apply andb_true_iff.
Qed.

Lemma all_in_ranges_spec (f : N → bool) ranges c :
  all_in_ranges f ranges = true → Unicode.in_ranges c ranges = true → f c = true.
Proof.
  unfold all_in_ranges. rewrite forallb_forall.
  intros Hall [r [Hr [H1 H2]]]%in_ranges_spec.
  apply list_elem_of_In, Hall in Hr. rewrite forallb_forall in Hr.
  apply Hr, list_elem_of_In. by apply elem_of_enumerate.
Qed.

Lemma lowercase_run_Some c first last image :
  Unicode.lowercase_run c = Some (first, last, image) →
  (first, last, image) ∈ Unicode.Lowercase_Mapping ∧ first ≤ c ∧ c ≤ last.
Proof.
  unfold Unicode.lowercase_run.
  intros [Hin [H1%N.leb_le H2%N.leb_le]%andb_true_iff]%find_some.
  by rewrite list_elem_of_In.
Qed.

Lemma all_images_spec (f : N → bool) c first last image :
  all_images f = true →
  Unicode.lowercase_run c = Some (first, last, image) →
  f (image + (c - first)) = true.
Proof.
  unfold all_images. rewrite forallb_forall.
  intros Hall (Hin & H1 & H2)%lowercase_run_Some.
  apply list_elem_of_In, Hall in Hin. rewrite forallb_forall in Hin.
  apply Hin, list_elem_of_In. unfold run_images. cbn [fst snd].
  apply list_elem_of_fmap. exists c. split; [done|]. by apply elem_of_enumerate.
Qed.

Lemma to_lower_full_Forall (f : N → bool) c :
  f 0x69 = true → f 0x307 = true → all_images f = true →
  (Unicode.lowercase_run c = None → c ≠ 0x130 → f c = true) →
  Forall (λ d, f d = true) (Unicode.to_lower_full c).
Proof.
  intros Hi Hdot Himg Hself. unfold Unicode.to_lower_full.
  destruct (N.eqb_spec c 0x130) as [->|Hne]; [by repeat constructor|].
  destruct (Unicode.lowercase_run c) as [[[first last] image]|] eqn:Hrun.
  - repeat constructor. by apply (all_images_spec f c first last).
  - repeat constructor. by apply Hself.
Qed.

Lemma images_not_paired_capital : all_images not_paired_capital = true.
Proof. vm_compute. reflexivity. Qed.

Lemma images_fixed : all_images is_fixed = true.
Proof. vm_compute. reflexivity. Qed.

Lemma images_code_points : all_images is_code_point = true.
Proof. vm_compute. reflexivity. Qed.

Lemma capitals_lowercase_or_caseless :
  all_in_ranges (λ c, has_lowercase c || is_caseless_capital c)
                (Unicode.Uppercase_ranges ++ Unicode.Titlecase_ranges) = true.
Proof. vm_compute. reflexivity. Qed.

Lemma caseless_capitals_are_capitals_without_lowercase :
  all_in_ranges (λ c, is_capital c && negb (has_lowercase c))
                Unicode.Caseless_capital_ranges = true.
Proof. vm_compute. reflexivity. Qed.

Lemma is_capital_in_ranges c :
  is_capital c = true →
  Unicode.in_ranges c (Unicode.Uppercase_ranges ++ Unicode.Titlecase_ranges) = true.
Proof.
  unfold is_capital, Unicode.is_uppercase, Unicode.is_titlecase, Unicode.in_ranges.
  by rewrite existsb_app.
Qed.

Lemma has_lowercase_false c :
  Unicode.lowercase_run c = None → c ≠ 0x130 → has_lowercase c = false.
Proof.
  intros Hrun Hne. unfold has_lowercase. rewrite Hrun.
  destruct (N.eqb_spec c 0x130); [done|]. reflexivity.
Qed.

Lemma to_lower_full_not_paired_capital c :
  Forall (λ d, not_paired_capital d = true) (Unicode.to_lower_full c).
Proof.
  apply to_lower_full_Forall; [done | done | apply images_not_paired_capital |].
  intros Hrun Hne. unfold not_paired_capital.
  destruct (is_capital c) eqn:Hcap; [|done].
  pose proof (all_in_ranges_spec _ _ c capitals_lowercase_or_caseless
                (is_capital_in_ranges c Hcap)) as Hc.
  cbn beta in Hc. rewrite (has_lowercase_false c Hrun Hne), orb_false_l in Hc.
  by rewrite Hc.
Qed.

Lemma to_lower_full_self c :
  Unicode.lowercase_run c = None → c ≠ 0x130 → Unicode.to_lower_full c = [c].
Proof.
  intros Hrun Hne. unfold Unicode.to_lower_full. rewrite Hrun.
  by destruct (N.eqb_spec c 0x130).
Qed.

Lemma to_lower_full_fixed c :
  Forall (λ d, is_fixed d = true) (Unicode.to_lower_full c).
Proof.
  apply to_lower_full_Forall; [done | done | apply images_fixed |].
  intros Hrun Hne. unfold is_fixed. rewrite (to_lower_full_self c Hrun Hne).
  destruct (N.eqb_spec c 0x3A3) as [->|_]; [by vm_compute in Hrun|].
  cbn. apply N.eqb_refl.
Qed.

Lemma to_lower_full_code_points c :
  c < 0x110000 → Forall (λ d, is_code_point d = true) (Unicode.to_lower_full c).
Proof.
  intros Hc. apply to_lower_full_Forall; [done | done | apply images_code_points |].
  intros _ _. by apply N.ltb_lt.
Qed.

Lemma handle_capital_sigma_cases before after :
  Py.handle_capital_sigma before after = 0x3C2 ∨
  Py.handle_capital_sigma before after = 0x3C3.
Proof.
  unfold Py.handle_capital_sigma.
  repeat case_match; auto.
Qed.

Lemma do_lower_Forall (f : N → bool) before cps :
  f 0x3C2 = true → f 0x3C3 = true →
  Forall (λ c, Forall (λ d, f d = true) (Unicode.to_lower_full c)) cps →
  Forall (λ d, f d = true) (Py.do_lower before cps).
Proof.
  intros Hfinal Hsigma Hall. revert before.
  induction Hall as [|c cps Hc _ IH]; intros before; cbn [Py.do_lower]; [done|].
  apply Forall_app. split; [|apply IH].
  destruct (N.eqb_spec c 0x3A3); [|done].
  destruct (handle_capital_sigma_cases before cps) as [-> | ->];
    by repeat constructor.
Qed.

Lemma do_lower_fixed before cps :
  Forall (λ c, is_fixed c = true) cps → Py.do_lower before cps = cps.
Proof.
  intros Hall. revert before.
  induction Hall as [|c cps Hc _ IH]; intros before; cbn [Py.do_lower]; [done|].
  unfold is_fixed in Hc. apply andb_true_iff in Hc as [Hns Hc].
  apply negb_true_iff in Hns. rewrite Hns.
  destruct (Unicode.to_lower_full c) as [|d [|? ?]]; try done.
  apply N.eqb_eq in Hc as ->. cbn. by rewrite IH.
Qed.

Lemma lower_decode s cps :
  Utf8.decode s = Some cps →
  Py.lower s = Utf8.encode (Py.do_lower [] cps) ∧
  Utf8.decode (Py.lower s) = Some (Py.do_lower [] cps).
Proof.
  intros Hdec. unfold Py.lower. rewrite Hdec. split; [done|].
  apply decode_encode.
  apply (Forall_impl (λ d, is_code_point d = true)); [|intros d; apply N.ltb_lt].
  apply do_lower_Forall; [done | done |].
  apply decode_bound in Hdec.
  apply (Forall_impl _ _ _ Hdec). intros c Hc. by apply to_lower_full_code_points.
Qed.

Lemma lower_idempotent s : Py.lower (Py.lower s) = Py.lower s.
Proof.
  destruct (Utf8.decode s) as [cps|] eqn:Hdec.
  - destruct (lower_decode s cps Hdec) as [Heq Hdec'].
    unfold Py.lower at 1. rewrite Hdec', Heq. f_equal.
    apply do_lower_fixed, do_lower_Forall; [done | done |].
    apply Forall_forall. intros c _. apply to_lower_full_fixed.
  - unfold Py.lower. by rewrite Hdec, Hdec.
Qed.

Lemma lower_no_paired_capital s : has_paired_capital (Py.lower s) = false.
Proof.
  unfold has_paired_capital.
  destruct (Utf8.decode s) as [cps|] eqn:Hdec.
  - destruct (lower_decode s cps Hdec) as [_ ->].
    apply not_true_iff_false. intros [d [Hd Hcap]]%existsb_exists.
    assert (Hall : Forall (λ d, not_paired_capital d = true) (Py.do_lower [] cps)).
    { apply do_lower_Forall; [done | done |].
      apply Forall_forall. intros c _. apply to_lower_full_not_paired_capital. }
    rewrite Forall_forall in Hall. apply list_elem_of_In, Hall in Hd.
    unfold not_paired_capital in Hd. by rewrite Hcap in Hd.
  - unfold Py.lower. by rewrite Hdec, Hdec.
Qed.

(** The model on a few strings: an accented capital, capital sigma inside
    and at the end of a word, capital I with dot above, a capital without a
    lower-case counterpart, and plain ASCII. *)
Lemma lower_examples :
  Py.lower "École" = "école" ∧
  Py.lower "ΟΔΟΣ ΣΟΦΟΣ" = "οδος σοφος" ∧
  Py.lower "İstanbul" = "i̇stanbul" ∧
  Py.lower "ℂ" = "ℂ" ∧
  Py.lower "I am EATING" = "i am eating".
Proof. repeat split; vm_compute; reflexivity. Qed.

End lower_facts.

(** ** The tokenizer *)

Section tokenizer_facts.

Implicit Types (g : Globals) (t sentence : string).

Lemma spacy_tokenizer_unfold g sentence :
  spacy_tokenizer g sentence = List.filter (keep_token g) (lemmas_lower g sentence).
Proof. reflexivity. Qed.

Lemma lemmas_lower_fmap g sentence :
  lemmas_lower g sentence = Py.lower <$> (lemma_ <$> nlp g sentence).
Proof. unfold lemmas_lower. by rewrite <- list_fmap_compose. Qed.

Lemma keep_token_spec g t :
  keep_token g t = true ↔
  (t ∉ stop_words g) ∧ ¬ ∃ pre post, punctuations g = pre +:+ t +:+ post.
Proof.
  unfold keep_token.
  rewrite andb_true_iff, !negb_true_iff, <- !not_true_iff_false.
  by rewrite set_contains_spec, str_contains_spec.
Qed.

Lemma elem_of_spacy_tokenizer g sentence t :
  t ∈ spacy_tokenizer g sentence ↔
  t ∈ lemmas_lower g sentence ∧ keep_token g t = true.
Proof.
  rewrite spacy_tokenizer_unfold, !list_elem_of_In. apply filter_In.
Qed.

Lemma filter_sublist {A} (f : A → bool) (l : list A) :
  sublist (List.filter f l) l.
Proof.
  induction l as [|x l IH]; cbn [List.filter]; [constructor|].
  destruct (f x); by constructor.
Qed.

Lemma lemmas_lower_cased g sentence :
  Forall (λ t, has_paired_capital t = false ∧ Py.lower t = t)
         (lemmas_lower g sentence).
Proof.
  unfold lemmas_lower. induction (nlp g sentence) as [|w doc IH]; constructor.
  - split; [apply lower_no_paired_capital | apply lower_idempotent].
  - exact IH.
Qed.

End tokenizer_facts.

(** ** Claims about the tokenizer *)

(** What the filter does guarantee: no returned token is a member of the
    stop-word set, and none is a contiguous piece of the punctuation
    string. *)
Lemma spacy_tokenizer_filtered (g : Globals) (sentence : string) :
  Forall (λ t, (t ∉ stop_words g) ∧ Py.str_contains (punctuations g) t = false)
         (spacy_tokenizer g sentence).
Proof.
  apply Forall_forall. intros t [_ Hk]%elem_of_spacy_tokenizer.
  apply andb_true_iff in Hk as [Hs Hp]. apply negb_true_iff in Hs, Hp.
  split; [|done]. rewrite <- set_contains_spec. by rewrite Hs.
Qed.

(** C1, evaluated on the code: for the sentence [Wait...], whose analysis
    ends in the single token [...], the tokenizer returns [wait] and [...];
    the second one consists of punctuation characters only, yet it is in the
    output, because it is not a contiguous piece of [string.punctuation]. *)
Theorem spacy_tokenizer_keeps_ellipsis :
  spacy_tokenizer (notebook example_pipeline) "Wait..." = ["wait"; "..."] ∧
  punctuation_only "..." = true ∧
  "..." ∈ spacy_tokenizer (notebook example_pipeline) "Wait...".
Proof.
  assert (Hrun : spacy_tokenizer (notebook example_pipeline) "Wait..."
                 = ["wait"; "..."]) by (vm_compute; reflexivity).
  split; [exact Hrun|]. split; [vm_compute; reflexivity|].
  rewrite Hrun. right. left.
Qed.

(** C3: when the pipeline analyses [I am eating apple, I like apple] into
    the lemmas I, be, eat, apple, comma, I, like, apple and
    [I am playing cricket] into I, be, play, cricket, the tokenizer returns
    exactly [eat; apple; like; apple] for the first sentence and
    [play; cricket] for the second. *)
Theorem spacy_tokenizer_examples (pipeline : Language) :
  lemma_ <$> pipeline "I am eating apple, I like apple"
    = ["I"; "be"; "eat"; "apple"; ","; "I"; "like"; "apple"] →
  lemma_ <$> pipeline "I am playing cricket" = ["I"; "be"; "play"; "cricket"] →
  spacy_tokenizer (notebook pipeline) "I am eating apple, I like apple"
    = ["eat"; "apple"; "like"; "apple"] ∧
  spacy_tokenizer (notebook pipeline) "I am playing cricket" = ["play"; "cricket"].
Proof.
  intros H1 H2.
  rewrite !spacy_tokenizer_unfold, !lemmas_lower_fmap. cbn [nlp notebook].
  rewrite H1, H2. split; vm_compute; reflexivity.
Qed.

Lemma spacy_tokenizer_examples_witness :
  spacy_tokenizer (notebook example_pipeline) "I am eating apple, I like apple"
    = ["eat"; "apple"; "like"; "apple"] ∧
  spacy_tokenizer (notebook example_pipeline) "I am playing cricket"
    = ["play"; "cricket"].
Proof.
  apply (spacy_tokenizer_examples example_pipeline); vm_compute; reflexivity.
Defined.

(** C4, as the code has it: every token the tokenizer returns is
    unchanged by a further [lower()] and contains no upper-case or
    title-case character that Unicode pairs with a lower-case one, whatever
    kind of token it comes from; and when a lemma is a well-formed string,
    so is its normalized form.  Capitals without a lower-case counterpart
    are the only upper-case characters a token can contain. *)
Theorem spacy_tokenizer_lower_case (g : Globals) (sentence : string) :
  Forall (λ t, has_paired_capital t = false ∧ Py.lower t = t)
         (spacy_tokenizer g sentence) ∧
  Forall (λ w, is_Some (Utf8.decode (lemma_ w)) →
               is_Some (Utf8.decode (Py.lower (lemma_ w))))
         (nlp g sentence).
Proof.
  split.
  - rewrite spacy_tokenizer_unfold.
    pose proof (lemmas_lower_cased g sentence) as Hall.
    induction Hall as [|t l Ht _ IH]; cbn [List.filter]; [constructor|].
    destruct (keep_token g t); [|exact IH].
    by constructor.
  - apply Forall_forall. intros w _ [cps Hcps].
    destruct (lower_decode _ cps Hcps) as [_ Hdec]. by rewrite Hdec.
Qed.

(** C4 as stated fails: the double-struck capital C is an upper-case
    character without a lower-case counterpart, [lower()] leaves it alone,
    and the tokenizer returns it. *)
Lemma spacy_tokenizer_keeps_caseless_capital :
  spacy_tokenizer (notebook field_pipeline) "ℂ is a field" = ["ℂ"; "field"] ∧
  has_capital "ℂ" = true ∧
  ¬ Forall (λ t, has_capital t = false)
           (spacy_tokenizer (notebook field_pipeline) "ℂ is a field").
Proof.
  assert (Hrun : spacy_tokenizer (notebook field_pipeline) "ℂ is a field"
                 = ["ℂ"; "field"]) by (vm_compute; reflexivity).
  assert (Hcap : has_capital "ℂ" = true) by (vm_compute; reflexivity).
  split; [exact Hrun|]. split; [exact Hcap|].
  rewrite Hrun. intros Hall. apply Forall_cons in Hall as [Hc _].
  rewrite Hcap in Hc. discriminate Hc.
Qed.

(** C5: the pipeline's document for the empty string has no tokens, and
    then the tokenizer returns the empty list. *)
Theorem spacy_tokenizer_empty (g : Globals) :
  nlp g "" = [] → spacy_tokenizer g "" = [].
Proof. unfold spacy_tokenizer. by intros ->. Qed.

Lemma spacy_tokenizer_empty_witness :
  spacy_tokenizer (notebook example_pipeline) "" = [].
Proof. apply (spacy_tokenizer_empty (notebook example_pipeline)). reflexivity. Defined.

(** C6: let [s] be an already-normalized single-token string (the pipeline
    analyses it into one token whose lower-cased lemma is [s] itself) that is
    neither a stop word nor caught by the punctuation test.  Then the
    tokenizer returns [[s]], and tokenizing that sole output token again
    returns [[s]] again. *)
Theorem spacy_tokenizer_idempotent (g : Globals) (s : string) :
  lemmas_lower g s = [s] →
  Py.set_contains (stop_words g) s = false →
  Py.str_contains (punctuations g) s = false →
  spacy_tokenizer g s = [s] ∧
  spacy_tokenizer g <$> spacy_tokenizer g s = [[s]].
Proof.
  intros Hone Hstop Hpunct.
  assert (Hs : spacy_tokenizer g s = [s]).
  { rewrite spacy_tokenizer_unfold, Hone. cbn [List.filter].
    unfold keep_token. by rewrite Hstop, Hpunct. }
  split; [exact Hs|]. rewrite Hs. cbn [fmap list_fmap]. by rewrite Hs.
Qed.

Lemma spacy_tokenizer_idempotent_witness :
  spacy_tokenizer (notebook example_pipeline) "apple" = ["apple"] ∧
  spacy_tokenizer (notebook example_pipeline)
    <$> spacy_tokenizer (notebook example_pipeline) "apple" = [["apple"]].
Proof.
  apply (spacy_tokenizer_idempotent (notebook example_pipeline) "apple");
    vm_compute; reflexivity.
Defined.

Lemma call_spacy_tokenizer_result {S} (sentence : string) (k : Kernel S) :
  (call_spacy_tokenizer sentence k).1 = spacy_tokenizer (globals_of k) sentence.
Proof.
  unfold call_spacy_tokenizer, spacy_tokenizer, keep_token, globals_of.
  cbn [nlp stop_words punctuations].
  by destruct (nlp_object k (nlp_state k) sentence).
Qed.

Lemma call_spacy_tokenizer_frame {S} (sentence : string) (k : Kernel S) :
  nlp_object (call_spacy_tokenizer sentence k).2 = nlp_object k ∧
  stop_words_object (call_spacy_tokenizer sentence k).2 = stop_words_object k ∧
  punctuations_object (call_spacy_tokenizer sentence k).2 = punctuations_object k.
Proof.
  unfold call_spacy_tokenizer.
  by destruct (nlp_object k (nlp_state k) sentence).
Qed.

Lemma run_calls_frame {S} (history : list string) (k : Kernel S) :
  nlp_object (run_calls history k) = nlp_object k ∧
  stop_words_object (run_calls history k) = stop_words_object k ∧
  punctuations_object (run_calls history k) = punctuations_object k.
Proof.
  revert k. induction history as [|s history IH]; intros k; [done|].
  cbn [run_calls]. destruct (IH (call_spacy_tokenizer s k).2) as (-> & -> & ->).
  apply call_spacy_tokenizer_frame.
Qed.

Lemma call_spacy_tokenizer_depends {S} (sentence : string) (k k' : Kernel S) :
  fixed_behaviour (nlp_object k) →
  nlp_object k' = nlp_object k →
  stop_words_object k' = stop_words_object k →
  punctuations_object k' = punctuations_object k →
  (call_spacy_tokenizer sentence k').1 = (call_spacy_tokenizer sentence k).1.
Proof.
  intros Hfixed Hnlp Hstop Hpunct.
  rewrite !call_spacy_tokenizer_result, !spacy_tokenizer_unfold, !lemmas_lower_fmap.
  unfold globals_of. cbn [nlp]. rewrite Hnlp.
  rewrite (Hfixed (nlp_state k') (nlp_state k) sentence).
  apply filter_ext. intros t. unfold keep_token. cbn [stop_words punctuations].
  by rewrite Hstop, Hpunct.
Qed.

(** C7: with a pipeline of fixed behaviour, a call of the tokenizer returns
    the same token list whatever calls of the tokenizer came before it, in
    particular when the same call is made twice in a row: the call changes
    neither the stop-word set nor the punctuation string, and its result
    depends on the kernel's memory only through them and through the lemmas
    the pipeline assigns to the sentence. *)
Theorem spacy_tokenizer_deterministic {S} (k : Kernel S)
        (history : list string) (sentence : string) :
  fixed_behaviour (nlp_object k) →
  (call_spacy_tokenizer sentence (run_calls history k)).1
    = (call_spacy_tokenizer sentence k).1 ∧
  (call_spacy_tokenizer sentence (call_spacy_tokenizer sentence k).2).1
    = (call_spacy_tokenizer sentence k).1 ∧
  stop_words_object (run_calls history k) = stop_words_object k ∧
  punctuations_object (run_calls history k) = punctuations_object k.
Proof.
  intros Hfixed.
  destruct (run_calls_frame history k) as (Hnlp & Hstop & Hpunct).
  destruct (call_spacy_tokenizer_frame sentence k) as (Hnlp1 & Hstop1 & Hpunct1).
  repeat split; try done; by apply call_spacy_tokenizer_depends.
Qed.

Lemma spacy_tokenizer_deterministic_witness :
  (call_spacy_tokenizer "I am eating apple, I like apple"
     (run_calls ["I am playing cricket"; "Wait..."] counting_kernel)).1
    = (call_spacy_tokenizer "I am eating apple, I like apple" counting_kernel).1 ∧
  (call_spacy_tokenizer "I am eating apple, I like apple"
     (call_spacy_tokenizer "I am eating apple, I like apple" counting_kernel).2).1
    = (call_spacy_tokenizer "I am eating apple, I like apple" counting_kernel).1 ∧
  stop_words_object (run_calls ["I am playing cricket"; "Wait..."] counting_kernel)
    = stop_words_object counting_kernel ∧
  punctuations_object (run_calls ["I am playing cricket"; "Wait..."] counting_kernel)
    = punctuations_object counting_kernel.
Proof.
  apply (spacy_tokenizer_deterministic counting_kernel).
  intros σ σ' s. reflexivity.
Defined.

(** C9: the punctuation test is substring search in the 32-character
    string [string.punctuation]: the test fires on a token exactly when the
    token is a contiguous piece of that string.  A token with a given
    normalized form is therefore returned exactly when that form is not a
    stop word and not such a piece; the two-character token made of an
    opening and a closing parenthesis is dropped, the three-dot token is
    kept. *)
Theorem punctuation_filter_is_substring_search (pipeline : Language) :
  String.length string_punctuation = 32 ∧
  (∀ t, Py.str_contains string_punctuation t = true ↔
        ∃ pre post, string_punctuation = pre +:+ t +:+ post) ∧
  (∀ sentence t,
     t ∈ spacy_tokenizer (notebook pipeline) sentence ↔
     t ∈ lemmas_lower (notebook pipeline) sentence ∧
     (t ∉ STOP_WORDS) ∧
     ¬ ∃ pre post, string_punctuation = pre +:+ t +:+ post) ∧
  keep_token (notebook pipeline) "()" = false ∧
  keep_token (notebook pipeline) "..." = true.
Proof.
  split; [reflexivity|]. split; [intros t; apply str_contains_spec|].
  split; [|split; vm_compute; reflexivity].
  intros sentence t.
  by rewrite elem_of_spacy_tokenizer, keep_token_spec.
Qed.

(** C10: the returned list is a subsequence of the list of lower-cased
    lemmas of the pipeline's tokens: filtering only removes elements. *)
Theorem spacy_tokenizer_subsequence (g : Globals) (sentence : string) :
  sublist (spacy_tokenizer g sentence) (lemmas_lower g sentence).
Proof. rewrite spacy_tokenizer_unfold. apply filter_sublist. Qed.

(** ** The count vectorizer on the two example sentences *)

Section count_vectorizer_facts.

Variable pipeline : Language.
Variable lc : bool.

Let s0 := sklearn.preprocess lc "I am eating apple, I like apple".
Let s1 := sklearn.preprocess lc "I am playing cricket".

Hypothesis analysis0 :
  lemmas_lower (notebook pipeline) s0
  = ["i"; "be"; "eat"; "apple"; ","; "i"; "like"; "apple"].
Hypothesis analysis1 :
  lemmas_lower (notebook pipeline) s1 = ["i"; "be"; "play"; "cricket"].

Lemma tokens0 :
  spacy_tokenizer (notebook pipeline) s0 = ["eat"; "apple"; "like"; "apple"].
Proof. rewrite spacy_tokenizer_unfold, analysis0. vm_compute; reflexivity. Qed.

Lemma tokens1 :
  spacy_tokenizer (notebook pipeline) s1 = ["play"; "cricket"].
Proof. rewrite spacy_tokenizer_unfold, analysis1. vm_compute; reflexivity. Qed.

Lemma fit_sentences :
  sklearn.vocabulary_ (sklearn.fit (cv (notebook pipeline) lc) sentences)
  = list_to_map [("eat", 2); ("apple", 0); ("like", 3); ("play", 4); ("cricket", 1)].
Proof.
  unfold sklearn.fit, sklearn.analyze, sentences.
  cbn [map concat cv sklearn.tokenizer sklearn.lowercase sklearn.vocabulary_].
  fold s0 s1. rewrite tokens0, tokens1. vm_compute; reflexivity.
Qed.

Lemma transform_sentences :
  sklearn.transform (sklearn.fit (cv (notebook pipeline) lc) sentences) sentences
  = [[2; 0; 1; 1; 0]; [0; 1; 0; 0; 1]].
Proof.
  unfold sklearn.transform, sklearn.count_row. rewrite fit_sentences.
  unfold sklearn.analyze, sentences.
  cbn [map sklearn.fit cv sklearn.tokenizer sklearn.lowercase].
  fold s0 s1. rewrite tokens0, tokens1. vm_compute; reflexivity.
Qed.

End count_vectorizer_facts.

(** C2: fitting the count vectorizer on the two example sentences, when
    the pipeline analyses them (as handed over by the vectorizer) into the
    normalized lemmas i, be, eat, apple, comma, i, like, apple and
    i, be, play, cricket, gives a 2-by-5 matrix; the learned vocabulary is
    apple, cricket, eat, like, play in that column order, row 0 is
    [2,0,1,1,0] and row 1 is [0,1,0,0,1]. *)
Theorem count_vectorizer_example (pipeline : Language) (lc : bool) :
  lemmas_lower (notebook pipeline)
    (sklearn.preprocess lc "I am eating apple, I like apple")
    = ["i"; "be"; "eat"; "apple"; ","; "i"; "like"; "apple"] →
  lemmas_lower (notebook pipeline) (sklearn.preprocess lc "I am playing cricket")
    = ["i"; "be"; "play"; "cricket"] →
  sklearn.shape (sklearn.fit_transform (cv (notebook pipeline) lc) sentences).2
    = (2, 5) ∧
  sklearn.get_feature_names_out
    (sklearn.fit_transform (cv (notebook pipeline) lc) sentences).1
    = ["apple"; "cricket"; "eat"; "like"; "play"] ∧
  sklearn.vocabulary_
    (sklearn.fit_transform (cv (notebook pipeline) lc) sentences).1
    = list_to_map
        [("eat", 2); ("apple", 0); ("like", 3); ("play", 4); ("cricket", 1)] ∧
  (sklearn.fit_transform (cv (notebook pipeline) lc) sentences).2
    = [[2; 0; 1; 1; 0]; [0; 1; 0; 0; 1]].
Proof.
  intros H0 H1. unfold sklearn.fit_transform. cbn [fst snd].
  unfold sklearn.get_feature_names_out.
  rewrite (transform_sentences pipeline lc H0 H1).
  rewrite (fit_sentences pipeline lc H0 H1).
  repeat split; vm_compute; reflexivity.
Qed.

Lemma count_vectorizer_example_witness :
  sklearn.shape
    (sklearn.fit_transform (cv (notebook example_pipeline) true) sentences).2
    = (2, 5) ∧
  sklearn.get_feature_names_out
    (sklearn.fit_transform (cv (notebook example_pipeline) true) sentences).1
    = ["apple"; "cricket"; "eat"; "like"; "play"] ∧
  sklearn.vocabulary_
    (sklearn.fit_transform (cv (notebook example_pipeline) true) sentences).1
    = list_to_map
        [("eat", 2); ("apple", 0); ("like", 3); ("play", 4); ("cricket", 1)] ∧
  (sklearn.fit_transform (cv (notebook example_pipeline) true) sentences).2
    = [[2; 0; 1; 1; 0]; [0; 1; 0; 0; 1]].
Proof.
  apply (count_vectorizer_example example_pipeline true);
    vm_compute; reflexivity.
Defined.

(** ** The evaluator *)

Section metrics_facts.

Import metrics.

Lemma Qnat_zero n : Qeq_bool (Qnat n) 0 = true ↔ n = 0.
Proof.
  rewrite Qeq_bool_iff. unfold Qnat, Qeq. cbn. lia.
Qed.

Lemma guarded_divide_undefined num den :
  Qeq_bool den 0 = true → guarded_divide num den = Returned 0%Q.
Proof. unfold guarded_divide, true_divide. by intros ->. Qed.

Lemma guarded_divide_returns num den :
  ∃ q, guarded_divide num den = Returned q ∧ (num == 0 → q == 0)%Q.
Proof.
  unfold guarded_divide, true_divide. destruct (Qeq_bool den 0).
  - exists 0%Q. split; [done|]. intros _. reflexivity.
  - exists (num / den)%Q. split; [done|]. intros ->. unfold Qdiv. ring.
Qed.

Lemma count_pairs_add (f h k : bool → bool → bool) (y_true y_pred : list bool) :
  (∀ t p, (if f t p then 1 else 0) + (if h t p then 1 else 0)
          = if k t p then 1 else 0) →
  count_pairs f y_true y_pred + count_pairs h y_true y_pred
  = count_pairs k y_true y_pred.
Proof.
  intros Hsplit. unfold count_pairs.
  induction (zip y_true y_pred) as [|[t p] l IH]; [done|].
  cbn [List.filter fst snd]. specialize (Hsplit t p).
  destruct (f t p), (h t p), (k t p); cbn [length] in *; lia.
Qed.

Lemma count_pairs_pred y_true y_pred :
  length y_true = length y_pred →
  count_pairs (λ _ p, p) y_true y_pred = predicted_positives y_pred.
Proof.
  unfold count_pairs, predicted_positives. revert y_pred.
  induction y_true as [|t ts IH]; intros [|p ps] Hlen; try done.
  injection Hlen as Hlen. specialize (IH ps Hlen).
  cbn [zip zip_with List.filter fst snd id] in *.
  destruct p; cbn [length]; lia.
Qed.

Lemma count_pairs_true y_true y_pred :
  length y_true = length y_pred →
  count_pairs (λ t _, t) y_true y_pred = actual_positives y_true.
Proof.
  unfold count_pairs, actual_positives. revert y_pred.
  induction y_true as [|t ts IH]; intros [|p ps] Hlen; try done.
  injection Hlen as Hlen. specialize (IH ps Hlen).
  cbn [zip zip_with List.filter fst snd id] in *.
  destruct t; cbn [length]; lia.
Qed.

Lemma tp_fp_predicted y_true y_pred :
  length y_true = length y_pred →
  tp y_true y_pred + fp y_true y_pred = predicted_positives y_pred.
Proof.
  intros Hlen. rewrite <- (count_pairs_pred y_true y_pred Hlen).
  apply count_pairs_add. by intros [] [].
Qed.

Lemma tp_fn_actual y_true y_pred :
  length y_true = length y_pred →
  tp y_true y_pred + fn y_true y_pred = actual_positives y_true.
Proof.
  intros Hlen. rewrite <- (count_pairs_true y_true y_pred Hlen).
  apply count_pairs_add. by intros [] [].
Qed.

Lemma f1_of_zero p r :
  (p == 0)%Q → (r == 0)%Q →
  guarded_divide (2 * p * r)%Q (p + r)%Q = Returned 0%Q.
Proof.
  intros Hp Hr. apply guarded_divide_undefined, Qeq_bool_iff.
  rewrite Hp, Hr. reflexivity.
Qed.

End metrics_facts.

(** C8: on predicted and true label sequences of equal length, precision,
    recall and F1 always return a score and never raise; when there are no
    predicted positives, precision and F1 are 0; when there are no actual
    positives, recall and F1 are 0; and whenever no position is a true
    positive, which covers every case where F1's own ratio is undefined,
    F1 is 0. *)
Theorem zero_division_returns_zero (y_true y_pred : list bool) :
  length y_true = length y_pred →
  (∃ p r f,
     metrics.precision_score y_true y_pred = metrics.Returned p ∧
     metrics.recall_score y_true y_pred = metrics.Returned r ∧
     metrics.f1_score y_true y_pred = metrics.Returned f) ∧
  (metrics.predicted_positives y_pred = 0 →
     metrics.precision_score y_true y_pred = metrics.Returned 0%Q ∧
     metrics.f1_score y_true y_pred = metrics.Returned 0%Q) ∧
  (metrics.actual_positives y_true = 0 →
     metrics.recall_score y_true y_pred = metrics.Returned 0%Q ∧
     metrics.f1_score y_true y_pred = metrics.Returned 0%Q) ∧
  (metrics.tp y_true y_pred = 0 →
     metrics.f1_score y_true y_pred = metrics.Returned 0%Q).
Proof.
  intros Hlen.
  pose proof (tp_fp_predicted y_true y_pred Hlen) as Hpred.
  pose proof (tp_fn_actual y_true y_pred Hlen) as Hact.
  unfold metrics.f1_score, metrics.precision_score, metrics.recall_score.
  destruct (guarded_divide_returns
              (metrics.Qnat (metrics.tp y_true y_pred))
              (metrics.Qnat (metrics.tp y_true y_pred + metrics.fp y_true y_pred)))
    as [p [Hp Hp0]].
  destruct (guarded_divide_returns
              (metrics.Qnat (metrics.tp y_true y_pred))
              (metrics.Qnat (metrics.tp y_true y_pred + metrics.fn y_true y_pred)))
    as [r [Hr Hr0]].
  rewrite Hp, Hr.
  assert (Htp0 : metrics.tp y_true y_pred = 0 →
                 (metrics.Qnat (metrics.tp y_true y_pred) == 0)%Q).
  { intros ->. reflexivity. }
  split; [|split; [|split]].
  - destruct (guarded_divide_returns (2 * p * r)%Q (p + r)%Q) as [f [Hf _]].
    by exists p, r, f.
  - intros Hnone. rewrite Hnone in Hpred.
    assert (Hp' : metrics.Returned p = metrics.Returned 0%Q).
    { rewrite <- Hp. apply guarded_divide_undefined, Qnat_zero. lia. }
    injection Hp' as ->. split; [done|].
    apply f1_of_zero; [reflexivity | apply Hr0, Htp0; lia].
  - intros Hnone. rewrite Hnone in Hact.
    assert (Hr' : metrics.Returned r = metrics.Returned 0%Q).
    { rewrite <- Hr. apply guarded_divide_undefined, Qnat_zero. lia. }
    injection Hr' as ->. split; [done|].
    apply f1_of_zero; [apply Hp0, Htp0; lia | reflexivity].
  - intros Hnone. apply f1_of_zero; [apply Hp0 | apply Hr0]; by apply Htp0.
Qed.

Lemma zero_division_returns_zero_witness :
  (length [true; false; true] = length [false; false; false] ∧
   metrics.predicted_positives [false; false; false] = 0 ∧
   metrics.precision_score [true; false; true] [false; false; false]
     = metrics.Returned 0%Q ∧
   metrics.f1_score [true; false; true] [false; false; false]
     = metrics.Returned 0%Q) ∧
  (length [true; false] = length [false; true] ∧
   metrics.tp [true; false] [false; true] = 0 ∧
   metrics.f1_score [true; false] [false; true] = metrics.Returned 0%Q).
Proof.
  split.
  - split; [reflexivity|]. split; [reflexivity|].
    exact (proj1 (proj2 (zero_division_returns_zero
                           [true; false; true] [false; false; false] eq_refl))
                 eq_refl).
  - split; [reflexivity|]. split; [reflexivity|].
    exact (proj2 (proj2 (proj2 (zero_division_returns_zero
                                  [true; false] [false; true] eq_refl)))
                 eq_refl).
Defined.

(** * Further properties of the tokenizer *)

Section tokenizer_more.

Implicit Types (g : Globals) (t sentence : string) (c : ascii).

Lemma chars_app s1 s2 : chars (s1 +:+ s2) = chars s1 ++ chars s2.
Proof.
  unfold chars. induction s1 as [|a s1 IH]; [done|].
  cbn. by rewrite <- IH.
Qed.

Lemma str_contains_chars hay needle c :
  Py.str_contains hay needle = true → c ∈ chars needle → c ∈ chars hay.
Proof.
  intros [pre [post ->]]%str_contains_spec Hc.
  rewrite !chars_app, !elem_of_app. auto.
Qed.

Lemma str_contains_single hay c :
  c ∈ chars hay → Py.str_contains hay (String c "") = true.
Proof.
  induction hay as [|a hay IH]; [by intros ?%elem_of_nil|].
  unfold chars. cbn [String.list_ascii_of_string Py.str_contains Py.startswith].
  intros [->|Hin]%elem_of_cons.
  - rewrite decide_True by done. by destruct hay.
  - rewrite (IH Hin). apply orb_true_r.
Qed.

Lemma elem_of_STOP_WORDS t : t ∈ STOP_WORDS ↔ t ∈ STOP_WORDS_printed.
Proof. unfold STOP_WORDS. apply elem_of_list_to_set. Qed.

Lemma stop_word_chars t c :
  t ∈ STOP_WORDS → c ∈ chars t → stop_word_char c = true.
Proof.
  intros Ht%elem_of_STOP_WORDS Hc. unfold stop_word_char.
  apply existsb_exists. exists t. split.
  - by apply list_elem_of_In.
  - by apply bool_decide_eq_true.
Qed.

Lemma foreign_char_kept pipeline t c :
  foreign_char c = true → c ∈ chars t →
  keep_token (notebook pipeline) t = true.
Proof.
  intros [Hs Hp]%andb_true_iff Hc.
  apply negb_true_iff in Hs, Hp. apply bool_decide_eq_false in Hp.
  unfold keep_token. cbn [stop_words punctuations notebook].
  apply andb_true_iff. split; apply negb_true_iff, not_true_iff_false.
  - intros Hin%set_contains_spec.
    pose proof (stop_word_chars t c Hin Hc) as Hs'. congruence.
  - intros Hin. apply Hp. by apply (str_contains_chars _ t).
Qed.

Lemma space_is_foreign c : Ascii.is_space c = true → foreign_char c = true.
Proof.
  destruct c as [[] [] [] [] [] [] [] []]; intros H; vm_compute in H;
    try discriminate H; vm_compute; reflexivity.
Qed.

Lemma digit_is_foreign c : is_digit c = true → foreign_char c = true.
Proof.
  destruct c as [[] [] [] [] [] [] [] []]; intros H; vm_compute in H;
    try discriminate H; vm_compute; reflexivity.
Qed.

Lemma stop_words_lower_case t : t ∈ STOP_WORDS → Py.lower t = t.
Proof.
  intros Ht%elem_of_STOP_WORDS%list_elem_of_In.
  assert (Hall : forallb (λ w, bool_decide (Py.lower w = w)) STOP_WORDS_printed
                 = true) by (vm_compute; reflexivity).
  rewrite forallb_forall in Hall. exact (bool_decide_eq_true_1 _ (Hall t Ht)).
Qed.

Lemma filter_filter_andb {A} (f h : A → bool) (l : list A) :
  List.filter h (List.filter f l) = List.filter (λ x, f x && h x) l.
Proof.
  induction l as [|x l IH]; [done|]. cbn [List.filter].
  destruct (f x); cbn [List.filter andb]; [|exact IH].
  destruct (h x); by rewrite IH.
Qed.

Lemma keep_token_empty g : keep_token g "" = false.
Proof. unfold keep_token. by rewrite str_contains_empty, andb_false_r. Qed.

End tokenizer_more.

(** X1: the empty string is never returned, whatever the globals hold: the
    empty string is a substring of every string, so the punctuation test
    always removes a token whose normalized form is empty. *)
Theorem spacy_tokenizer_no_empty_token (g : Globals) (sentence : string) :
  "" ∉ spacy_tokenizer g sentence.
Proof.
  intros [_ Hk]%elem_of_spacy_tokenizer. by rewrite keep_token_empty in Hk.
Qed.

(** X2: no returned token is a single character of the punctuation
    string. *)
Theorem spacy_tokenizer_no_punctuation_char (g : Globals) (sentence : string) :
  Forall (λ c, String c "" ∉ spacy_tokenizer g sentence) (chars (punctuations g)).
Proof.
  apply Forall_forall. intros c Hc [_ Hk]%elem_of_spacy_tokenizer.
  apply andb_true_iff in Hk as [_ Hp]. apply negb_true_iff in Hp.
  by rewrite (str_contains_single _ c Hc) in Hp.
Qed.

(** X3: the punctuation test only removes tokens made of punctuation
    characters alone.  A normalized token that is not a stop word and has at
    least one character outside the punctuation string is returned. *)
Theorem mixed_tokens_survive (g : Globals) (sentence t : string) (c : ascii) :
  t ∈ lemmas_lower g sentence →
  t ∉ stop_words g →
  c ∈ chars t →
  c ∉ chars (punctuations g) →
  t ∈ spacy_tokenizer g sentence.
Proof.
  intros Ht Hstop Hc Hout. apply elem_of_spacy_tokenizer. split; [done|].
  unfold keep_token. apply andb_true_iff.
  split; apply negb_true_iff, not_true_iff_false.
  - by rewrite set_contains_spec.
  - intros Hin. apply Hout. by apply (str_contains_chars _ t).
Qed.

Lemma mixed_tokens_survive_witness :
  "u.s." ∈ spacy_tokenizer (notebook table_pipeline) "The U.S.  has 50 states".
Proof.
  apply (mixed_tokens_survive (notebook table_pipeline) _ "u.s." "u").
  - vm_compute. right. left.
  - assert (Hn : Py.set_contains STOP_WORDS "u.s." = false)
      by (vm_compute; reflexivity).
    intros H%set_contains_spec.
    change (Py.set_contains STOP_WORDS "u.s." = true) in H.
    rewrite Hn in H. discriminate H.
  - vm_compute. left.
  - assert (Hout : bool_decide ("u"%char ∈ chars string_punctuation) = false)
      by (vm_compute; reflexivity).
    exact (bool_decide_eq_false_1 _ Hout).
Defined.

(** X4: white-space tokens are not removed.  With the notebook's stop
    words and punctuation string, a normalized token that contains a
    white-space character (space, tab, line feed, vertical tab, form feed,
    carriage return) is returned. *)
Theorem whitespace_tokens_survive (pipeline : Language) (sentence t : string)
        (c : ascii) :
  t ∈ lemmas_lower (notebook pipeline) sentence →
  c ∈ chars t →
  Ascii.is_space c = true →
  t ∈ spacy_tokenizer (notebook pipeline) sentence.
Proof.
  intros Ht Hc Hspace. apply elem_of_spacy_tokenizer. split; [done|].
  apply (foreign_char_kept pipeline t c); [by apply space_is_foreign | done].
Qed.

Lemma whitespace_tokens_survive_witness :
  " " ∈ spacy_tokenizer (notebook table_pipeline) "The U.S.  has 50 states".
Proof.
  apply (whitespace_tokens_survive table_pipeline _ " " " ").
  - vm_compute. right. right. left.
  - vm_compute. left.
  - reflexivity.
Defined.

(** X5: numbers are not removed.  With the notebook's stop words and
    punctuation string, a normalized token that contains a decimal digit is
    returned. *)
Theorem digit_tokens_survive (pipeline : Language) (sentence t : string)
        (c : ascii) :
  t ∈ lemmas_lower (notebook pipeline) sentence →
  c ∈ chars t →
  is_digit c = true →
  t ∈ spacy_tokenizer (notebook pipeline) sentence.
Proof.
  intros Ht Hc Hdigit. apply elem_of_spacy_tokenizer. split; [done|].
  apply (foreign_char_kept pipeline t c); [by apply digit_is_foreign | done].
Qed.

Lemma digit_tokens_survive_witness :
  "50" ∈ spacy_tokenizer (notebook table_pipeline) "The U.S.  has 50 states".
Proof.
  apply (digit_tokens_survive table_pipeline _ "50" "5").
  - vm_compute. do 4 right. left.
  - vm_compute. left.
  - reflexivity.
Defined.

(** X6: stop-word removal does not depend on letter case.  Every printed
    stop word is itself lower-case, so a lemma that agrees with a stop word
    up to the case of its letters is never returned. *)
Theorem stop_words_removed_in_any_case (pipeline : Language)
        (sentence lemma w : string) :
  w ∈ STOP_WORDS →
  Py.lower lemma = Py.lower w →
  Py.lower lemma ∉ spacy_tokenizer (notebook pipeline) sentence.
Proof.
  intros Hw Hcase [_ Hk]%elem_of_spacy_tokenizer.
  apply keep_token_spec in Hk as [Hstop _]. apply Hstop.
  cbn [stop_words notebook]. by rewrite Hcase, (stop_words_lower_case w Hw).
Qed.

Lemma stop_words_removed_in_any_case_witness :
  Py.lower "THE" ∉ spacy_tokenizer (notebook table_pipeline) "The U.S.  has 50 states".
Proof.
  apply (stop_words_removed_in_any_case table_pipeline _ "THE" "the").
  - apply set_contains_spec. vm_compute. reflexivity.
  - reflexivity.
Defined.

(** X7: enlarging the stop-word set only removes tokens.  With the same
    lemmas and the same punctuation string, the result under the larger set
    is the result under the smaller set with the members of the larger set
    filtered out, hence a subsequence of it. *)
Theorem more_stop_words_fewer_tokens (g1 g2 : Globals) (sentence : string) :
  lemma_ <$> nlp g1 sentence = lemma_ <$> nlp g2 sentence →
  punctuations g1 = punctuations g2 →
  stop_words g1 ⊆ stop_words g2 →
  spacy_tokenizer g2 sentence
    = List.filter (λ t, negb (Py.set_contains (stop_words g2) t))
                  (spacy_tokenizer g1 sentence) ∧
  sublist (spacy_tokenizer g2 sentence) (spacy_tokenizer g1 sentence).
Proof.
  intros Hlemmas Hpunct Hsub.
  assert (Heq : spacy_tokenizer g2 sentence
                = List.filter (λ t, negb (Py.set_contains (stop_words g2) t))
                              (spacy_tokenizer g1 sentence)).
  { rewrite !spacy_tokenizer_unfold, !lemmas_lower_fmap, Hlemmas.
    rewrite filter_filter_andb. apply filter_ext. intros t.
    unfold keep_token. rewrite Hpunct.
    destruct (Py.set_contains (stop_words g2) t) eqn:H2; cbn [negb andb].
    - by rewrite andb_false_r.
    - rewrite andb_true_r.
      assert (H1 : Py.set_contains (stop_words g1) t = false).
      { apply not_true_iff_false. intros H1%set_contains_spec.
        apply not_true_iff_false in H2. apply H2, set_contains_spec.
        by apply Hsub. }
      by rewrite H1. }
  split; [exact Heq|]. rewrite Heq. apply filter_sublist.
Qed.

Lemma more_stop_words_fewer_tokens_witness :
  spacy_tokenizer (notebook_with_stop_word table_pipeline "state")
                  "The U.S.  has 50 states"
    = List.filter
        (λ t, negb (Py.set_contains
                      (stop_words (notebook_with_stop_word table_pipeline "state")) t))
        (spacy_tokenizer (notebook table_pipeline) "The U.S.  has 50 states") ∧
  sublist (spacy_tokenizer (notebook_with_stop_word table_pipeline "state")
                           "The U.S.  has 50 states")
          (spacy_tokenizer (notebook table_pipeline) "The U.S.  has 50 states").
Proof.
  apply (more_stop_words_fewer_tokens
           (notebook table_pipeline)
           (notebook_with_stop_word table_pipeline "state")).
  - vm_compute. reflexivity.
  - vm_compute. reflexivity.
  - unfold notebook, notebook_with_stop_word. cbn [stop_words].
    apply union_subseteq_l.
Defined.

(** * Further properties of the count vectorizer *)

Section vectorizer_more.

Import sklearn.

Implicit Types (v : CountVectorizer) (docs : list string) (t d : string).

Lemma first_seen_spec (seen tokens : list string) :
  NoDup seen →
  NoDup (first_seen seen tokens) ∧
  ∀ t, t ∈ first_seen seen tokens ↔ t ∈ seen ∨ t ∈ tokens.
Proof.
  revert seen. induction tokens as [|x tokens IH]; intros seen Hnd.
  - cbn. split; [done|]. intros t. rewrite elem_of_nil. tauto.
  - cbn [first_seen]. case_bool_decide as Hx.
    + destruct (IH seen Hnd) as [Hnd' Hin]. split; [done|].
      intros t. rewrite Hin, elem_of_cons. split; [tauto|].
      intros [?|[->|?]]; auto.
    + assert (Hnd1 : NoDup (seen ++ [x])).
      { apply NoDup_app. split; [done|]. split; [|apply NoDup_singleton].
        intros y Hy ->%list_elem_of_singleton. done. }
      destruct (IH _ Hnd1) as [Hnd' Hin]. split; [done|].
      intros t. rewrite Hin, elem_of_app, list_elem_of_singleton, elem_of_cons.
      tauto.
Qed.

Lemma fitted_terms_NoDup v docs : NoDup (fitted_terms v docs).
Proof.
  unfold fitted_terms, sort_features. rewrite merge_sort_Permutation.
  apply first_seen_spec, NoDup_nil_2.
Qed.

Lemma elem_of_fitted_terms v docs t :
  t ∈ fitted_terms v docs ↔ ∃ d, d ∈ docs ∧ t ∈ analyze v d.
Proof.
  unfold fitted_terms, sort_features. rewrite merge_sort_Permutation.
  destruct (first_seen_spec [] (concat (map (analyze v) docs)) (NoDup_nil_2))
    as [_ ->].
  rewrite elem_of_nil, list_elem_of_In, in_concat. split.
  - intros [[]|[l [Hl Ht]]]. apply in_map_iff in Hl as [d [<- Hd]].
    exists d. by rewrite !list_elem_of_In.
  - intros [d [Hd Ht]]. right. exists (analyze v d). split.
    + apply in_map. by apply list_elem_of_In.
    + by apply list_elem_of_In.
Qed.

Lemma fitted_terms_sorted v docs : StronglySorted String.le (fitted_terms v docs).
Proof. apply StronglySorted_merge_sort; apply _. Qed.

Lemma elem_of_zip_seq (terms : list string) t j :
  (t, j) ∈ zip terms (seq 0 (length terms)) ↔ terms !! j = Some t.
Proof.
  rewrite list_elem_of_lookup. split.
  - intros [i Hi]. apply lookup_zip_with_Some in Hi as (x & y & Heq & Hx & Hy).
    injection Heq as -> ->. apply lookup_seq in Hy as [-> _]. done.
  - intros Hj. exists j. apply lookup_zip_with_Some. exists t, j.
    split; [done|]. split; [done|]. apply lookup_seq.
    split; [done|]. by apply lookup_lt_Some in Hj.
Qed.

Lemma zip_seq_fst (terms : list string) :
  (zip terms (seq 0 (length terms))).*1 = terms.
Proof. apply fst_zip. by rewrite length_seq. Qed.

Lemma index_terms_lookup (terms : list string) t j :
  NoDup terms → index_terms terms !! t = Some j ↔ terms !! j = Some t.
Proof.
  intros Hnd. unfold index_terms.
  rewrite <- elem_of_list_to_map by by rewrite zip_seq_fst.
  apply elem_of_zip_seq.
Qed.

Lemma index_terms_size (terms : list string) :
  NoDup terms → size (index_terms terms) = length terms.
Proof.
  intros Hnd. unfold index_terms.
  rewrite map_size_list_to_map by by rewrite zip_seq_fst.
  rewrite length_zip, length_seq. lia.
Qed.

#[local] Instance by_index_trans : Transitive by_index.
Proof. intros a b c. unfold by_index. lia. Qed.

#[local] Instance by_index_total : Total by_index.
Proof. intros a b. unfold by_index. lia. Qed.

Lemma zip_seq_sorted (terms : list string) k :
  Sorted by_index (zip terms (seq k (length terms))).
Proof.
  revert k. induction terms as [|t terms IH]; intros k; cbn; [constructor|].
  constructor; [apply IH|].
  destruct terms as [|t' terms]; cbn; constructor. unfold by_index. cbn. lia.
Qed.

Lemma fit_vocabulary v docs :
  vocabulary_ (fit v docs) = index_terms (fitted_terms v docs).
Proof. reflexivity. Qed.

Lemma fit_feature_names v docs :
  get_feature_names_out (fit v docs) = fitted_terms v docs.
Proof.
  unfold get_feature_names_out. rewrite fit_vocabulary.
  pose proof (fitted_terms_NoDup v docs) as Hnd.
  set (terms := fitted_terms v docs) in *.
  set (pairs := zip terms (seq 0 (length terms))).
  assert (Hperm : map_to_list (index_terms terms) ≡ₚ pairs).
  { apply map_to_list_to_map. unfold pairs. by rewrite zip_seq_fst. }
  assert (Hsorted : merge_sort by_index (map_to_list (index_terms terms)) = pairs).
  { apply (StronglySorted_unique_strong by_index).
    - intros [t1 j1] [t2 j2] H1 H2 Hle1 Hle2.
      rewrite merge_sort_Permutation, Hperm in H1.
      apply elem_of_zip_seq in H1, H2. unfold by_index in *. cbn in *.
      assert (j1 = j2) as -> by lia. congruence.
    - apply StronglySorted_merge_sort; apply _.
    - apply Sorted_StronglySorted; [apply _|]. apply zip_seq_sorted.
    - by rewrite merge_sort_Permutation. }
  rewrite Hsorted. apply zip_seq_fst.
Qed.

Lemma fit_analyze v docs d : analyze (fit v docs) d = analyze v d.
Proof. reflexivity. Qed.

Lemma occurrences_disjoint (P Q : string → Prop)
      `{∀ t, Decision (P t)} `{∀ t, Decision (Q t)} (tokens : list string) :
  (∀ t, P t → Q t → False) →
  length (filter (λ t, P t ∨ Q t) tokens)
  = length (filter P tokens) + length (filter Q tokens).
Proof.
  intros Hdisj. induction tokens as [|x tokens IH]; [done|].
  rewrite !filter_cons.
  destruct (decide (P x)) as [HP|HP], (decide (Q x)) as [HQ|HQ].
  - destruct (Hdisj x HP HQ).
  - rewrite decide_True by auto. cbn. by rewrite IH.
  - rewrite decide_True by auto. cbn. rewrite IH. lia.
  - rewrite decide_False by tauto. exact IH.
Qed.

Lemma occurrences_total (names tokens : list string) :
  NoDup names →
  sum_list ((λ term, occurrences term tokens) <$> names)
  = length (filter (λ t, t ∈ names) tokens).
Proof.
  induction 1 as [|term names Hnotin Hnd IH]; cbn [fmap list_fmap sum_list].
  - induction tokens as [|x tokens IHt]; [done|].
    rewrite filter_cons, decide_False by apply not_elem_of_nil. exact IHt.
  - cbn. rewrite IH. unfold occurrences.
    rewrite <- (occurrences_disjoint (λ t, t = term) (λ t, t ∈ names)).
    + f_equal. apply list_filter_iff. intros t. by rewrite elem_of_cons.
    + intros t -> Hin. by apply Hnotin.
Qed.

Lemma count_row_fit v docs d :
  count_row (fit v docs) d
  = (λ term, occurrences term (analyze v d)) <$> fitted_terms v docs.
Proof.
  pose proof (fitted_terms_NoDup v docs) as Hnd.
  unfold count_row. rewrite fit_analyze, fit_vocabulary, index_terms_size by done.
  apply list_eq. intros j. change map with (@fmap list _). rewrite !list_lookup_fmap.
  destruct (fitted_terms v docs !! j) as [term|] eqn:Hj; cbn.
  - assert (Hlt : j < length (fitted_terms v docs)) by by eapply lookup_lt_Some.
    rewrite (lookup_seq_lt _ _ _ Hlt). cbn. f_equal. unfold occurrences. f_equal.
    apply list_filter_iff. intros t. rewrite index_terms_lookup by done.
    rewrite Hj. split; congruence.
  - apply lookup_ge_None in Hj. rewrite lookup_seq_ge by lia. done.
Qed.

End vectorizer_more.

Lemma filter_all (P : string → Prop) `{∀ t, Decision (P t)} (l : list string) :
  Forall P l → filter P l = l.
Proof.
  induction 1 as [|x l Hx _ IH]; [done|].
  by rewrite filter_cons, decide_True, IH.
Qed.

Lemma vocabulary_dom (v : sklearn.CountVectorizer) (docs : list string) (t : string) :
  t ∈ dom (sklearn.vocabulary_ (sklearn.fit v docs)) ↔ t ∈ fitted_terms v docs.
Proof.
  pose proof (fitted_terms_NoDup v docs) as Hnd.
  rewrite elem_of_dom, fit_vocabulary, list_elem_of_lookup. unfold is_Some.
  split; intros [j Hj]; exists j; by apply index_terms_lookup.
Qed.

(** X8: the vocabulary learned by the count vectorizer built on the
    tokenizer consists of exactly the tokens that the tokenizer returns for
    some document of the corpus as the vectorizer hands it over, that is,
    lower-cased first when the [lowercase] option is on and unchanged
    otherwise. *)
Theorem vocabulary_is_corpus_tokens (g : Globals) (lc : bool)
        (docs : list string) (t : string) :
  t ∈ dom (sklearn.vocabulary_ (sklearn.fit (cv g lc) docs)) ↔
  ∃ d, d ∈ docs ∧ t ∈ spacy_tokenizer g (sklearn.preprocess lc d).
Proof. rewrite vocabulary_dom. apply elem_of_fitted_terms. Qed.

(** X9: no term of the learned vocabulary is a stop word, a contiguous
    piece of the punctuation string or the empty string, and no term
    contains an upper-case or title-case character that Unicode pairs with
    a lower-case one. *)
Theorem vocabulary_is_clean (g : Globals) (lc : bool) (docs : list string) :
  map_Forall
    (λ t _, (t ∉ stop_words g) ∧
            Py.str_contains (punctuations g) t = false ∧
            t ≠ "" ∧
            has_paired_capital t = false)
    (sklearn.vocabulary_ (sklearn.fit (cv g lc) docs)).
Proof.
  intros t j Hj.
  assert (Hdom : t ∈ dom (sklearn.vocabulary_ (sklearn.fit (cv g lc) docs)))
    by (apply elem_of_dom; eauto).
  apply vocabulary_dom, elem_of_fitted_terms in Hdom as [d [_ Ht]].
  change (t ∈ spacy_tokenizer g (sklearn.preprocess lc d)) in Ht.
  pose proof (spacy_tokenizer_filtered g (sklearn.preprocess lc d)) as Hf.
  rewrite Forall_forall in Hf. destruct (Hf t Ht) as [Hstop Hpunct].
  apply elem_of_spacy_tokenizer in Ht as [Hin Hkeep].
  pose proof (lemmas_lower_cased g (sklearn.preprocess lc d)) as Hl.
  rewrite Forall_forall in Hl.
  repeat split; [done | done | | by apply Hl].
  intros ->. by rewrite keep_token_empty in Hkeep.
Qed.

(** X10: the column index and the feature name determine each other.  After
    fitting, a term has index [j] in the vocabulary exactly when it is the
    [j]-th feature name, and there are as many feature names as vocabulary
    entries, so the indices are 0, 1, ..., n-1, each used once. *)
Theorem vocabulary_index_round_trip (v : sklearn.CountVectorizer)
        (docs : list string) :
  (∀ t j,
     sklearn.vocabulary_ (sklearn.fit v docs) !! t = Some j ↔
     sklearn.get_feature_names_out (sklearn.fit v docs) !! j = Some t) ∧
  length (sklearn.get_feature_names_out (sklearn.fit v docs))
  = size (sklearn.vocabulary_ (sklearn.fit v docs)).
Proof.
  pose proof (fitted_terms_NoDup v docs) as Hnd.
  rewrite fit_feature_names, fit_vocabulary. split.
  - intros t j. by apply index_terms_lookup.
  - by rewrite index_terms_size.
Qed.

(** X11: the feature names come out in ascending order of the terms,
    without repetition. *)
Theorem feature_names_sorted (v : sklearn.CountVectorizer) (docs : list string) :
  StronglySorted String.le (sklearn.get_feature_names_out (sklearn.fit v docs)) ∧
  NoDup (sklearn.get_feature_names_out (sklearn.fit v docs)).
Proof.
  rewrite fit_feature_names. split.
  - apply fitted_terms_sorted.
  - apply fitted_terms_NoDup.
Qed.

(** X12: every cell of the matrix is a multiplicity.  For any documents,
    seen during fitting or not, the row of a document lists, feature name
    by feature name, how often that term occurs among the document's
    tokens; so there is one row per document and one column per feature
    name. *)
Theorem count_matrix_cells (v : sklearn.CountVectorizer)
        (docs new_docs : list string) :
  sklearn.transform (sklearn.fit v docs) new_docs
  = (λ d, (λ term, occurrences term (sklearn.analyze v d))
            <$> sklearn.get_feature_names_out (sklearn.fit v docs))
    <$> new_docs.
Proof.
  unfold sklearn.transform. rewrite fit_feature_names.
  change map with (@fmap list _). apply list_fmap_ext.
  intros i d _. apply count_row_fit.
Qed.

(** X13: tokens that are not in the vocabulary are ignored.  The entries
    of a document's row add up to the number of the document's tokens that
    belong to the fitted vocabulary. *)
Theorem row_total_counts_known_tokens (v : sklearn.CountVectorizer)
        (docs : list string) (d : string) :
  sum_list (sklearn.count_row (sklearn.fit v docs) d)
  = length (filter (λ t, t ∈ dom (sklearn.vocabulary_ (sklearn.fit v docs)))
                   (sklearn.analyze v d)).
Proof.
  rewrite count_row_fit, occurrences_total by apply fitted_terms_NoDup.
  f_equal. apply list_filter_iff. intros t. by rewrite vocabulary_dom.
Qed.

(** X14: nothing is lost on the corpus itself.  For a document of the
    fitted corpus, the entries of its row add up to the number of tokens the
    tokenizer returns for the document as the vectorizer hands it over
    (lower-cased first when the [lowercase] option is on). *)
Theorem row_total_on_corpus (g : Globals) (lc : bool)
        (docs : list string) (d : string) :
  d ∈ docs →
  sum_list (sklearn.count_row (sklearn.fit (cv g lc) docs) d)
  = length (spacy_tokenizer g (sklearn.preprocess lc d)).
Proof.
  intros Hd.
  rewrite count_row_fit, occurrences_total by apply fitted_terms_NoDup.
  change (spacy_tokenizer g (sklearn.preprocess lc d))
    with (sklearn.analyze (cv g lc) d).
  f_equal. apply filter_all, Forall_forall.
  intros t Ht. apply elem_of_fitted_terms. eauto.
Qed.

Lemma row_total_on_corpus_witness :
  sum_list (sklearn.count_row
              (sklearn.fit (cv (notebook example_pipeline) true) sentences)
              "I am playing cricket")
  = length (spacy_tokenizer (notebook example_pipeline)
                            (sklearn.preprocess true "I am playing cricket")).
Proof.
  apply (row_total_on_corpus (notebook example_pipeline) true sentences).
  right. left.
Defined.
